(** * Resolution banner and incident discover link of the Sentry front end

    A shallow embedding of [renderReason] and [ResolutionBox]
    (resolution banner of an issue) and of [getIncidentDiscoverUrl]
    (link from an alert incident to the discover view), with the
    properties their specification states about them; and of the
    smaller components around them ([ActionSpecificTargetSelector],
    [StatsHeader], the theme [Sample] and [ColorTable] of the
    documentation, [mountWithTheme] of the tests), with properties read
    off their code.

    JavaScript values are modelled as follows: an optional field
    [f?: T] is [option T] ([None] is [undefined]); a condition
    [if (x)] is [toBoolean x]; a property read [x.f] on a value that
    may be [undefined] goes through [prop], which throws a [TypeError]
    on [undefined] as the language does; React elements are the
    constructors of [ReactNode]. *)

From Stdlib Require Import Ascii.
From stdpp Require Import base option list strings gmap.

Local Open Scope string_scope.
Local Open Scope list_scope.

(** ** JavaScript values *)

Module Js.

(** [ToBoolean] of the language: what a condition does to its operand. *)
Class ToBoolean (A : Type) := toBoolean : A → bool.

#[export] Instance boolean_ToBoolean : ToBoolean bool := λ b, b.

(** The empty string is the one falsy string. *)
#[export] Instance string_ToBoolean : ToBoolean string :=
  λ s, match s with EmptyString => false | String _ _ => true end.

(** [undefined] is falsy, a defined value is as truthy as it is itself. *)
#[export] Instance optional_ToBoolean {A} `{ToBoolean A} : ToBoolean (option A) :=
  λ o, match o with None => false | Some a => toBoolean a end.

(** Arrays are objects: truthy, also when empty. *)
#[export] Instance array_ToBoolean {A} : ToBoolean (list A) := λ _, true.

Inductive Error := TypeError.

(** The outcome of evaluating an expression: a value, or a thrown error. *)
Inductive Completion (A : Type) :=
| Normal (a : A)
| Throw (e : Error).
Arguments Normal {A} a.
Arguments Throw {A} e.

#[export] Instance Completion_ret : MRet Completion := @Normal.
#[export] Instance Completion_bind : MBind Completion := λ A B f c,
  match c with Normal a => f a | Throw e => Throw e end.
#[export] Instance Completion_fmap : FMap Completion := λ A B f c,
  match c with Normal a => Normal (f a) | Throw e => Throw e end.

(** [x.f]: reading a property of [undefined] is a [TypeError]. *)
Definition prop {A B} (f : A → B) (x : option A) : Completion B :=
  match x with Some a => Normal (f a) | None => Throw TypeError end.

(** [x ?? d] *)
Definition nullish {A} (x : option A) (d : A) : A := default d x.

(** [x || d] on values: [x] when it is truthy, else [d]. *)
Definition logical_or {A} `{ToBoolean A} (x : option A) (d : A) : A :=
  match x with
  | Some a => if toBoolean a then a else d
  | None => d
  end.

End Js.
Import Js.

(** ** The resolution banner *)

Module ResolutionBox.

(** Modelled from the spec: the declarations of app/types are not among
    the sources. An actor is an identity with a display name. *)
Record AvatarUser := { name : string }.

(** Modelled from the spec: the repository a commit belongs to. *)
Record Repository := { repository_name : string }.

(** Modelled from the spec: a commit reference [{id, repository, dateCreated}]. *)
Record Commit := {
  id : string;
  repository : Repository;
  dateCreated : string
}.

(** Modelled from the spec: the fields of the stored resolution status
    that [renderReason] reads, all optional. *)
Record ResolutionStatusDetails := {
  actor : option AvatarUser;
  inNextRelease : option bool;
  inRelease : option string;
  inCommit : option Commit
}.

(** Modelled from the spec: the tag of an activity; further tags of the
    application do not matter to the banner. *)
Inductive GroupActivityType :=
| NOTE
| SET_RESOLVED
| SET_RESOLVED_BY_AGE
| SET_RESOLVED_IN_RELEASE
| SET_RESOLVED_IN_COMMIT
| SET_UNRESOLVED
| SET_IGNORED.

#[export] Instance GroupActivityType_eq_dec : EqDecision GroupActivityType.
Proof. solve_decision. Defined.

(** Modelled from the spec: the payload of an activity; a field that
    the activity does not carry reads as [undefined]. *)
Record GroupActivityData := {
  version : option string;
  current_release_version : option string
}.

Record GroupActivity := {
  type : GroupActivityType;
  data : GroupActivityData
}.

(** Objects are truthy whatever they hold. *)
#[export] Instance AvatarUser_ToBoolean : ToBoolean AvatarUser := λ _, true.
#[export] Instance Commit_ToBoolean : ToBoolean Commit := λ _, true.

(** React elements, as far as the banner builds them. *)
#[warnings="-register-all"] Inductive ReactNode :=
| Null
| Text (s : string)
| Strong (children : list ReactNode)
| Span (style : list (string * Z)) (child : ReactNode)
| UserAvatar (user : option AvatarUser) (size : Z) (className : string)
| Version (version : option string) (projectId : string) (tooltipRawVersion : bool)
| Fragment (children : list ReactNode)
| CommitLink (commitId : string) (repository : Repository)
| StyledTimeSince (date : string)
| Tct (template : string) (components : list (string * ReactNode))
| StyledIconCheckmark (color : string)
| BannerSummary (children : list ReactNode)
| BannerContainer (priority : string) (children : list ReactNode).

(** Modelled from the spec: app/locale is not among the sources. [t]
    yields the message itself, [tct] a template whose named placeholders
    are bound to elements. *)
Definition t (message : string) : ReactNode := Text message.
Definition tct (template : string) (components : list (string * ReactNode)) : ReactNode :=
  Tct template components.

(** [activities.find(activity => activity.type === SET_RESOLVED_IN_RELEASE)] *)
Definition relevantActivity (activities : list GroupActivity) : option GroupActivity :=
  find (λ activity, bool_decide (type activity = SET_RESOLVED_IN_RELEASE)) activities.

(** [relevantActivity?.data.current_release_version] *)
Definition currentReleaseVersion (activities : list GroupActivity) : option string :=
  match relevantActivity activities with
  | None => None
  | Some activity => current_release_version (data activity)
  end.

Definition renderReason (statusDetails : ResolutionStatusDetails) (projectId : string)
    (activities : list GroupActivity) : Completion ReactNode :=
  actor_ ←
    (if toBoolean (actor statusDetails) then
       actor_name ← prop name (actor statusDetails);
       mret (Strong [UserAvatar (actor statusDetails) 20%Z "avatar";
                     Span [("marginLeft", 5%Z)] (Text actor_name)])
     else mret Null);
  let currentReleaseVersion := currentReleaseVersion activities in
  if toBoolean (inNextRelease statusDetails) && toBoolean (actor statusDetails) then
    mret (tct "[actor] marked this issue as resolved in the upcoming release."
              [("actor", actor_)])
  else if toBoolean (inNextRelease statusDetails) then
    mret (t "This issue has been marked as resolved in the upcoming release.")
  else if toBoolean (inRelease statusDetails) && toBoolean (actor statusDetails) then
    mret (if toBoolean currentReleaseVersion then
            tct "[actor] marked this issue as resolved in versions greater than [version]."
                [("actor", actor_);
                 ("version", Version currentReleaseVersion projectId true)]
          else
            tct "[actor] marked this issue as resolved in version [version]."
                [("actor", actor_);
                 ("version", Version (inRelease statusDetails) projectId true)])
  else if toBoolean (inRelease statusDetails) then
    mret (if toBoolean currentReleaseVersion then
            tct "This issue has been marked as resolved in versions greater than [version]."
                [("version", Version currentReleaseVersion projectId true)]
          else
            tct "This issue has been marked as resolved in version [version]."
                [("version", Version (inRelease statusDetails) projectId true)])
  else if toBoolean (inCommit statusDetails) then
    commitId ← prop id (inCommit statusDetails);
    commitRepository ← prop repository (inCommit statusDetails);
    date ← prop dateCreated (inCommit statusDetails);
    mret (tct "This issue has been marked as resolved by [commit]"
              [("commit", Fragment [CommitLink commitId commitRepository;
                                    StyledTimeSince date])])
  else
    mret (t "This issue has been marked as resolved.").

Record Props := {
  props_statusDetails : ResolutionStatusDetails;
  props_projectId : string;
  props_activities : option (list GroupActivity)
}.

(** [function ResolutionBox({statusDetails, projectId, activities = []})] *)
Definition ResolutionBox (props : Props) : Completion ReactNode :=
  let statusDetails := props_statusDetails props in
  let projectId := props_projectId props in
  let activities := default [] (props_activities props) in
  reason ← renderReason statusDetails projectId activities;
  mret (BannerContainer "default"
          [BannerSummary [StyledIconCheckmark "green300"; Span [] reason]]).

(** *** Vocabulary of the specification *)

(** The identity reference of an actor: avatar and display name. *)
Definition actorReference (user : AvatarUser) : ReactNode :=
  Strong [UserAvatar (Some user) 20%Z "avatar";
          Span [("marginLeft", 5%Z)] (Text (name user))].

(** The version reference, linking to the release of the project. *)
Definition versionReference (v projectId : string) : ReactNode :=
  Version (Some v) projectId true.

(** The commit reference: link to the commit, then the time since it. *)
Definition commitReference (commit : Commit) : ReactNode :=
  Fragment [CommitLink (id commit) (repository commit);
            StyledTimeSince (dateCreated commit)].

(** The conditions of the resolver, in their order of precedence. *)
Inductive Condition :=
| NextRelease
| Release
| InCommit
| GenericResolved.

(** The messages [renderReason] has in its text. *)
Inductive Message :=
| UpcomingByActor
| Upcoming
| GreaterThanByActor
| VersionByActor
| GreaterThan
| InVersion
| ByCommit
| Resolved.

#[export] Instance Message_eq_dec : EqDecision Message.
Proof. solve_decision. Defined.

Definition messages : list Message :=
  [UpcomingByActor; Upcoming; GreaterThanByActor; VersionByActor;
   GreaterThan; InVersion; ByCommit; Resolved].

Definition template (m : Message) : string :=
  match m with
  | UpcomingByActor => "[actor] marked this issue as resolved in the upcoming release."
  | Upcoming => "This issue has been marked as resolved in the upcoming release."
  | GreaterThanByActor =>
      "[actor] marked this issue as resolved in versions greater than [version]."
  | VersionByActor => "[actor] marked this issue as resolved in version [version]."
  | GreaterThan =>
      "This issue has been marked as resolved in versions greater than [version]."
  | InVersion => "This issue has been marked as resolved in version [version]."
  | ByCommit => "This issue has been marked as resolved by [commit]"
  | Resolved => "This issue has been marked as resolved."
  end.

Definition condition (m : Message) : Condition :=
  match m with
  | UpcomingByActor | Upcoming => NextRelease
  | GreaterThanByActor | VersionByActor | GreaterThan | InVersion => Release
  | ByCommit => InCommit
  | Resolved => GenericResolved
  end.

(** The text of a translated message, with its placeholders in it. *)
Definition templateOf (node : ReactNode) : option string :=
  match node with
  | Text s => Some s
  | Tct s _ => Some s
  | _ => None
  end.

(** The names of the placeholders a message binds. *)
Definition placeholders (node : ReactNode) : list string :=
  match node with
  | Tct _ components => fst <$> components
  | _ => []
  end.

(** The message a node shows, if it is one of [messages]. *)
Definition messageOf (node : ReactNode) : option Message :=
  s ← templateOf node;
  find (λ m, bool_decide (template m = s)) messages.

(** The first condition that holds, in the order of the specification:
    next release, then release, then commit, then the generic message. *)
Definition firstMatch (statusDetails : ResolutionStatusDetails) : Condition :=
  if toBoolean (inNextRelease statusDetails) then NextRelease
  else if toBoolean (inRelease statusDetails) then Release
  else if toBoolean (inCommit statusDetails) then InCommit
  else GenericResolved.

(** The message of a status, given the version found in the history:
    the conditions of the specification, top to bottom. *)
Definition selected (statusDetails : ResolutionStatusDetails) (current : option string)
    : Message :=
  if toBoolean (inNextRelease statusDetails) then
    if toBoolean (actor statusDetails) then UpcomingByActor else Upcoming
  else if toBoolean (inRelease statusDetails) then
    if toBoolean (actor statusDetails) then
      if toBoolean current then GreaterThanByActor else VersionByActor
    else
      if toBoolean current then GreaterThan else InVersion
  else if toBoolean (inCommit statusDetails) then ByCommit
  else Resolved.

(** The banner around a message. *)
Definition banner (reason : ReactNode) : ReactNode :=
  BannerContainer "default"
    [BannerSummary [StyledIconCheckmark "green300"; Span [] reason]].

(** *** Sample data *)

Definition alice : AvatarUser := {| name := "Alice" |}.

Definition sampleCommit : Commit :=
  {| id := "f3a9c1e";
     repository := {| repository_name := "getsentry/sentry" |};
     dateCreated := "2021-08-02T10:00:00Z" |}.

(** An activity that resolved the issue in a release. *)
Definition resolvedInRelease (current : option string) : GroupActivity :=
  {| type := SET_RESOLVED_IN_RELEASE;
     data := {| version := None; current_release_version := current |} |}.

Definition note : GroupActivity :=
  {| type := NOTE; data := {| version := None; current_release_version := None |} |}.

(** A status and a history that lead to a given message. *)
Definition sampleInput (m : Message) : ResolutionStatusDetails * list GroupActivity :=
  let status a n r c :=
    {| actor := a; inNextRelease := n; inRelease := r; inCommit := c |} in
  match m with
  | UpcomingByActor => (status (Some alice) (Some true) None None, [])
  | Upcoming => (status None (Some true) None None, [])
  | GreaterThanByActor =>
      (status (Some alice) None (Some "1.2.0") None, [resolvedInRelease (Some "1.3.0")])
  | VersionByActor => (status (Some alice) None (Some "1.2.0") None, [])
  | GreaterThan =>
      (status None None (Some "1.2.0") None, [resolvedInRelease (Some "1.3.0")])
  | InVersion => (status None None (Some "1.2.0") None, [])
  | ByCommit => (status None None None (Some sampleCommit), [])
  | Resolved => (status None None None None, [])
  end.

End ResolutionBox.

(** ** The discover link of an incident *)

Module IncidentDiscover.

(** Modelled from the spec: numbers enter only through [Number(id)] and
    leave only through a template literal; both are kept abstract. *)
Class Numbers := {
  number : Type;
  Number : string → number;
  numberToString : number → string
}.

Module Project.
Record t := { id : string; slug : string }.
End Project.

Inductive Dataset := ERRORS | TRANSACTIONS.

#[export] Instance Dataset_eq_dec : EqDecision Dataset.
Proof. solve_decision. Defined.

Module AlertRule.
Record t `{Numbers} := {
  timeWindow : number;
  aggregate : string;
  dataset : Dataset
}.
End AlertRule.

Module Incident.
Record t `{Numbers} := {
  title : string;
  discoverQuery : option string;
  projects : list string;
  alertRule : AlertRule.t
}.
End Incident.

Module NewQuery.
Record t `{Numbers} := {
  id : option string;
  name : string;
  orderby : option string;
  yAxis : option (list string);
  query : string;
  projects : list number;
  version : Z;
  fields : list string;
  start : option string;
  end_ : option string
}.
End NewQuery.

(** [Partial<NewQuery>]: every field may be missing. *)
Module PartialNewQuery.
Record t `{Numbers} := {
  id : option (option string);
  name : option string;
  orderby : option (option string);
  yAxis : option (option (list string));
  query : option string;
  projects : option (list number);
  version : option Z;
  fields : option (list string);
  start : option (option string);
  end_ : option (option string)
}.
End PartialNewQuery.

(** [{...base, ...extra}]: a field of [extra] wins where it is there;
    spreading [undefined] adds nothing. *)
Definition spread `{Numbers} (base : NewQuery.t) (extra : option PartialNewQuery.t)
    : NewQuery.t :=
  match extra with
  | None => base
  | Some e =>
      {| NewQuery.id := default (NewQuery.id base) (PartialNewQuery.id e);
         NewQuery.name := default (NewQuery.name base) (PartialNewQuery.name e);
         NewQuery.orderby := default (NewQuery.orderby base) (PartialNewQuery.orderby e);
         NewQuery.yAxis := default (NewQuery.yAxis base) (PartialNewQuery.yAxis e);
         NewQuery.query := default (NewQuery.query base) (PartialNewQuery.query e);
         NewQuery.projects := default (NewQuery.projects base) (PartialNewQuery.projects e);
         NewQuery.version := default (NewQuery.version base) (PartialNewQuery.version e);
         NewQuery.fields := default (NewQuery.fields base) (PartialNewQuery.fields e);
         NewQuery.start := default (NewQuery.start base) (PartialNewQuery.start e);
         NewQuery.end_ := default (NewQuery.end_ base) (PartialNewQuery.end_ e) |}
  end.

Inductive QueryValue :=
| QString (s : string)
| QStrings (l : list string).

(** What [getResultsViewUrlTarget] yields: a path and a query object. *)
Module UrlTarget.
Record t := { pathname : string; query : gmap string QueryValue }.
End UrlTarget.

(** Modelled from the spec: the helpers of app/utils/discover and
    app/views/alerts that the function calls are not among the sources. *)
Class Discover `{Numbers} := {
  IncidentStats : Type;
  EventView : Type;
  getStartEndFromStats : IncidentStats → string * string;
  getAggregateAlias : string → string;
  fromSavedQuery : NewQuery.t → EventView;
  getResultsViewUrlTarget : EventView → string → UrlTarget.t
}.

Module Opts.
Record t `{Discover} := {
  orgSlug : string;
  projects : option (list Project.t);
  incident : option Incident.t;
  stats : option IncidentStats;
  extraQueryParams : option PartialNewQuery.t
}.
End Opts.

(** The function returns the string [''] or a target object. *)
Inductive Url :=
| UrlString (s : string)
| UrlObject (target : UrlTarget.t).

(** Objects are truthy; a number is falsy when it is [0]. *)
#[export] Instance Incident_ToBoolean `{Numbers} : ToBoolean Incident.t := λ _, true.
#[export] Instance IncidentStats_ToBoolean `{Discover} : ToBoolean IncidentStats := λ _, true.
#[export] Instance length_ToBoolean : ToBoolean nat := λ n, negb (Nat.eqb n 0).

(** [a || b] on conditions: [b] is evaluated only when [a] is false. *)
Definition or_else (a : bool) (b : Completion bool) : Completion bool :=
  if a then mret true else b.

Definition getIncidentDiscoverUrl `{Discover} (opts : Opts.t) : Completion Url :=
  let orgSlug := Opts.orgSlug opts in
  let projects := Opts.projects opts in
  let incident := Opts.incident opts in
  let stats := Opts.stats opts in
  let extraQueryParams := Opts.extraQueryParams opts in
  missing ←
    or_else (negb (toBoolean projects))
      (projects_length ← prop length projects;
       or_else (negb (toBoolean projects_length))
         (or_else (negb (toBoolean incident))
            (mret (negb (toBoolean stats)))));
  if (missing : bool) then mret (UrlString "")
  else
    alertRule ← prop Incident.alertRule incident;
    let timeWindowString := numberToString (AlertRule.timeWindow alertRule) +:+ "m" in
    '(start, end_) ← prop getStartEndFromStats stats;
    let aggregate := AlertRule.aggregate alertRule in
    incident_projects ← prop Incident.projects incident;
    selected ← prop (filter (λ p, Project.slug p ∈ incident_projects)) projects;
    let discoverQuery := spread
      {| NewQuery.id := None;
         NewQuery.name := logical_or (Incident.title <$> incident) "";
         NewQuery.orderby := Some ("-" +:+ getAggregateAlias aggregate);
         NewQuery.yAxis := if toBoolean aggregate then Some [aggregate] else None;
         NewQuery.query := nullish (incident ≫= Incident.discoverQuery) "";
         NewQuery.projects := map (λ p, Number (Project.id p)) selected;
         NewQuery.version := 2;
         NewQuery.fields :=
           if decide (AlertRule.dataset alertRule = ERRORS)
           then ["issue"; "count()"; "count_unique(user)"]
           else ["transaction"; aggregate];
         NewQuery.start := Some start;
         NewQuery.end_ := Some end_ |}
      extraQueryParams in
    let discoverView := fromSavedQuery discoverQuery in
    let target := getResultsViewUrlTarget discoverView orgSlug in
    mret (UrlObject
            {| UrlTarget.query :=
                 <["interval" := QString timeWindowString]> (UrlTarget.query target);
               UrlTarget.pathname := UrlTarget.pathname target |}).

End IncidentDiscover.

(** ** Further vocabulary for the resolution banner *)

Module ResolutionBoxAux.

Import ResolutionBox.

(** The elements a message binds to its placeholders. *)
Definition components (node : ReactNode) : list (string * ReactNode) :=
  match node with
  | Tct _ bound => bound
  | _ => []
  end.

(** Modelled from the spec: the placeholders of a template are the names
    it holds in square brackets, in the order of the text. [open] is the
    name being read, if a bracket is open. *)
Fixpoint bracketed_from (open : option string) (text : string) : list string :=
  match text with
  | EmptyString => []
  | String c rest =>
      match open with
      | None =>
          if Ascii.eqb c "["%char then bracketed_from (Some "") rest
          else bracketed_from None rest
      | Some name =>
          if Ascii.eqb c "]"%char then name :: bracketed_from None rest
          else bracketed_from (Some (name +:+ String c "")) rest
      end
  end.

Definition bracketed (text : string) : list string := bracketed_from None text.

(** A status with its falsy [inNextRelease] and [inRelease] taken out. *)
Definition dropFalsy (statusDetails : ResolutionStatusDetails) : ResolutionStatusDetails :=
  {| actor := actor statusDetails;
     inNextRelease :=
       if toBoolean (inNextRelease statusDetails) then inNextRelease statusDetails else None;
     inRelease :=
       if toBoolean (inRelease statusDetails) then inRelease statusDetails else None;
     inCommit := inCommit statusDetails |}.

#[export] Instance Condition_eq_dec : EqDecision Condition.
Proof. solve_decision. Defined.

(** The entries of a history that resolved the issue in a release. *)
Definition resolutionsInRelease (activities : list GroupActivity) : list GroupActivity :=
  filter (λ activity, type activity = SET_RESOLVED_IN_RELEASE) activities.

End ResolutionBoxAux.

(** ** Further vocabulary for the discover link *)

Module IncidentDiscoverAux.

Import IncidentDiscover.

(** The query of the object literal of [getIncidentDiscoverUrl], before
    the extra parameters are spread over it. *)
Definition defaultQuery `{Discover} (projects : list Project.t) (incident : Incident.t)
    (stats : IncidentStats) : NewQuery.t :=
  let aggregate := AlertRule.aggregate (Incident.alertRule incident) in
  {| NewQuery.id := None;
     NewQuery.name := logical_or (Some (Incident.title incident)) "";
     NewQuery.orderby := Some ("-" +:+ getAggregateAlias aggregate);
     NewQuery.yAxis := if toBoolean aggregate then Some [aggregate] else None;
     NewQuery.query := nullish (Incident.discoverQuery incident) "";
     NewQuery.projects :=
       map (λ p, Number (Project.id p))
         (filter (λ p, Project.slug p ∈ Incident.projects incident) projects);
     NewQuery.version := 2;
     NewQuery.fields :=
       if decide (AlertRule.dataset (Incident.alertRule incident) = ERRORS)
       then ["issue"; "count()"; "count_unique(user)"]
       else ["transaction"; aggregate];
     NewQuery.start := Some (getStartEndFromStats stats).1;
     NewQuery.end_ := Some (getStartEndFromStats stats).2 |}.

(** [{query: {...query, interval: timeWindowString}, ...toObject}] *)
Definition withInterval (timeWindowString : string) (target : UrlTarget.t) : UrlTarget.t :=
  {| UrlTarget.query := <["interval" := QString timeWindowString]> (UrlTarget.query target);
     UrlTarget.pathname := UrlTarget.pathname target |}.

(** The target of the discover view of a query, for an organization. *)
Definition viewTarget `{Discover} (query : NewQuery.t) (orgSlug : string) : UrlTarget.t :=
  getResultsViewUrlTarget (fromSavedQuery query) orgSlug.

(** [`${incident.alertRule.timeWindow}m`] *)
Definition timeWindowString `{Numbers} (incident : Incident.t) : string :=
  numberToString (AlertRule.timeWindow (Incident.alertRule incident)) +:+ "m".

(** The empty object as extra parameters. *)
Definition noExtra `{Numbers} : PartialNewQuery.t :=
  {| PartialNewQuery.id := None; PartialNewQuery.name := None;
     PartialNewQuery.orderby := None; PartialNewQuery.yAxis := None;
     PartialNewQuery.query := None; PartialNewQuery.projects := None;
     PartialNewQuery.version := None; PartialNewQuery.fields := None;
     PartialNewQuery.start := None; PartialNewQuery.end_ := None |}.

(** *** Sample data *)

(** Numbers kept as their decimal text. *)
Definition sampleNumbers : Numbers :=
  {| number := string; Number := λ s, s; numberToString := λ n, n |}.

(** Stand-ins for the helpers: stats are their period, a view is its
    query, and the target lists the name and the fields of the query. *)
Definition sampleDiscover : @Discover sampleNumbers :=
  {| IncidentStats := (string * string)%type;
     EventView := @NewQuery.t sampleNumbers;
     getStartEndFromStats := λ stats, stats;
     getAggregateAlias := λ aggregate, aggregate;
     fromSavedQuery := λ query, query;
     getResultsViewUrlTarget := λ view orgSlug,
       {| UrlTarget.pathname := "/organizations/" +:+ orgSlug +:+ "/discover/results/";
          UrlTarget.query :=
            {[ "name" := QString (NewQuery.name view);
               "field" := QStrings (NewQuery.fields view);
               "interval" := QString "1h" ]} |} |}.

Definition sampleAlertRule : @AlertRule.t sampleNumbers :=
  @AlertRule.Build_t sampleNumbers "60" "count()" ERRORS.

Definition sampleIncident : @Incident.t sampleNumbers :=
  {| Incident.title := "Too many errors";
     Incident.discoverQuery := None;
     Incident.projects := ["earth"];
     Incident.alertRule := sampleAlertRule |}.

Definition sampleProjects : list Project.t :=
  [{| Project.id := "1"; Project.slug := "mars" |};
   {| Project.id := "2"; Project.slug := "earth" |}].

Definition sampleOpts (extra : option (@PartialNewQuery.t sampleNumbers))
    : @Opts.t sampleNumbers sampleDiscover :=
  @Opts.Build_t sampleNumbers sampleDiscover
    "org-slug" (Some sampleProjects) (Some sampleIncident)
    (Some ("2021-08-01T00:00:00", "2021-08-02T00:00:00")) extra.

(** An alert on the 95th percentile of the duration of transactions. *)
Definition sampleTransactionIncident : @Incident.t sampleNumbers :=
  {| Incident.title := "Slow transactions";
     Incident.discoverQuery := Some "event.type:transaction";
     Incident.projects := ["earth"];
     Incident.alertRule :=
       @AlertRule.Build_t sampleNumbers "10" "p95(transaction.duration)" TRANSACTIONS |}.

Definition sampleTransactionOpts : @Opts.t sampleNumbers sampleDiscover :=
  @Opts.Build_t sampleNumbers sampleDiscover
    "org-slug" (Some sampleProjects) (Some sampleTransactionIncident)
    (Some ("2021-08-01T00:00:00", "2021-08-02T00:00:00")) None.

(** Extra parameters that name the query and choose its projects. *)
Definition sampleExtra : @PartialNewQuery.t sampleNumbers :=
  @PartialNewQuery.Build_t sampleNumbers
    None (Some "Incident #7") None None None (Some ["7"]) None None None None.

End IncidentDiscoverAux.

(** ** Elements of the other components *)

Module Jsx.

(** The value of a prop: a string, a boolean, a handler or an object. *)
Inductive Value (H O : Type) :=
| Str (s : string)
| Bool (b : bool)
| Handler (h : H)
| Obj (o : O).
Arguments Str {H O} s.
Arguments Bool {H O} b.
Arguments Handler {H O} h.
Arguments Obj {H O} o.

(** An element: nothing ([null] or [false]), a text, or a tag with its
    props and children. *)
#[warnings="-register-all"] Inductive Element (H O : Type) :=
| empty
| text (s : string)
| element (tag : string) (props : list (string * Value H O)) (children : list (Element H O)).
Arguments empty {H O}.
Arguments text {H O} s.
Arguments element {H O} tag props children.

(** An element and all that is below it, in the order of the text. *)
Fixpoint descendants {H O} (e : Element H O) : list (Element H O) :=
  e :: match e with
       | element _ _ children =>
           (fix below (es : list (Element H O)) : list (Element H O) :=
              match es with
              | [] => []
              | child :: es => descendants child ++ below es
              end) children
       | _ => []
       end.

Definition tagOf {H O} (e : Element H O) : option string :=
  match e with element tag _ _ => Some tag | _ => None end.

Definition propsOf {H O} (e : Element H O) : list (string * Value H O) :=
  match e with element _ props _ => props | _ => [] end.

(** The value of a prop of an element, if it has the prop. *)
Definition propOf {H O} (name : string) (e : Element H O) : option (Value H O) :=
  snd <$> find (λ p, bool_decide (p.1 = name)) (propsOf e).

Definition stringProp {H O} (name : string) (e : Element H O) : option string :=
  match propOf name e with Some (Str s) => Some s | _ => None end.

Definition boolProp {H O} (name : string) (e : Element H O) : option bool :=
  match propOf name e with Some (Bool b) => Some b | _ => None end.

(** The elements of a tag among an element and all that is below it. *)
Definition tagged {H O} (tag : string) (e : Element H O) : list (Element H O) :=
  filter (λ d, tagOf d = Some tag) (descendants e).

(** The handlers among the props of an element and of all below it. *)
Definition handlers {H O} (e : Element H O) : list H :=
  d ← descendants e;
  p ← propsOf d;
  match p.2 with Handler h => [h] | _ => [] end.

End Jsx.

(** ** The target of a Slack action *)

Module ActionTarget.

Import Jsx.

(** Modelled from the spec: the types of app/views/alerts/incidentRules
    are not among the sources; of the kinds of action and of target only
    Slack and the specific target are named. *)
Class ActionKinds := {
  ActionType : Type;
  TargetType : Type;
  ActionType_eq_dec :: EqDecision ActionType;
  TargetType_eq_dec :: EqDecision TargetType;
  SLACK : ActionType;
  SPECIFIC : TargetType
}.

Record Action `{ActionKinds} := {
  type : ActionType;
  targetType : option TargetType;
  inputChannelId : option string
}.

Record HTMLInputElement := { value : string }.
Record ChangeEvent := { target : HTMLInputElement }.

(** [R] is what the callback [onChange] of the caller yields. *)
Definition ActionSpecificTargetSelector `{ActionKinds} {R}
    (action : Action) (disabled : bool) (onChange : string → R)
    : Element (ChangeEvent → R) Empty_set :=
  let handleChangeSpecificTargetIdentifier (e : ChangeEvent) :=
    onChange (value (target e)) in
  if negb (bool_decide (targetType action = Some SPECIFIC))
     || negb (bool_decide (type action = SLACK))
  then empty
  else
    element "Input"
      [("type", Str "text");
       ("autoComplete", Str "off");
       ("disabled", Bool disabled);
       ("key", Str "inputChannelId");
       ("value", Str (logical_or (inputChannelId action) ""));
       ("onChange", Handler handleChangeSpecificTargetIdentifier);
       ("placeholder", Str "optional: channel ID or user ID")]
      [].

(** *** Sample data *)

Inductive SampleActionType := email | slack | pagerduty.
Inductive SampleTargetType := specific | user | team.

#[export] Instance SampleActionType_eq_dec : EqDecision SampleActionType.
Proof. solve_decision. Defined.
#[export] Instance SampleTargetType_eq_dec : EqDecision SampleTargetType.
Proof. solve_decision. Defined.

Definition sampleKinds : ActionKinds :=
  {| ActionType := SampleActionType; TargetType := SampleTargetType;
     SLACK := slack; SPECIFIC := specific |}.

Definition sampleAction (channel : option string) : @Action sampleKinds :=
  @Build_Action sampleKinds slack (Some specific) channel.

End ActionTarget.

(** ** The header of the stats pages *)

Module StatsHeader.

Import Jsx.

(** Modelled from the spec: of an organization the header reads the slug. *)
Record Organization := { slug : string }.

Inductive Tab := stats | team.

#[export] Instance Tab_eq_dec : EqDecision Tab.
Proof. solve_decision. Defined.

Definition StatsHeader (organization : Organization) (activeTab : Tab)
    : Element Empty_set Empty_set :=
  element "Fragment" []
    [element "BorderlessHeader" []
       [element "StyledHeaderContent" []
          [element "StyledLayoutTitle" [] [text "Stats"]];
        if bool_decide (activeTab = team) then
          element "Layout.HeaderActions" []
            [element "Button"
               [("title", Str "Send us feedback via email");
                ("size", Str "small");
                ("href", Str "mailto:workflow-feedback@sentry.io?subject=Team Stats Feedback")]
               [text "Give Feedback"]]
        else empty];
     element "Layout.Header" []
       [element "Layout.HeaderNavTabs" [("underlined", Bool true)]
          [element "li"
             [("className", Str (if bool_decide (activeTab = stats) then "active" else ""))]
             [element "Link"
                [("to", Str ("/organizations/" +:+ slug organization +:+ "/stats/"))]
                [text "Usage Stats"]];
           element "li"
             [("className", Str (if bool_decide (activeTab = team) then "active" else ""))]
             [element "Link"
                [("to", Str ("/organizations/" +:+ slug organization +:+ "/stats/team/"))]
                [text "Team Stats"; element "FeatureBadge" [("type", Str "beta")] []]]]]].

(** The page of a tab. *)
Definition tabPath (organization : Organization) (tab : Tab) : string :=
  match tab with
  | stats => "/organizations/" +:+ slug organization +:+ "/stats/"
  | team => "/organizations/" +:+ slug organization +:+ "/stats/team/"
  end.

End StatsHeader.

(** ** The theme sample and the colour tables of the documentation *)

Module DocsUi.

Import Jsx.

(** [type ThemeName = 'dark' | 'light'] *)
Inductive ThemeName := light | dark.

#[export] Instance ThemeName_eq_dec : EqDecision ThemeName.
Proof. solve_decision. Defined.

Definition themeString (theme : ThemeName) : string :=
  match theme with light => "light" | dark => "dark" end.

(** Modelled from the spec: the theme objects of app/utils/theme are not
    among the sources. *)
Class Themes := {
  Theme : Type;
  lightTheme : Theme;
  darkTheme : Theme
}.

(** An element of these components: a click hands a theme name to
    [setTheme], and the one object passed around is a theme. *)
Abbreviation View := (Element ThemeName Theme).

(** The children are rendered below the provider of the theme context:
    what they show is a function of the name provided. *)
Record Props `{Themes} := {
  children : ThemeName → View;
  showThemeSwitcher : option bool;
  noBorder : option bool
}.

(** [Sample] with a button for each theme. [theme] is the state of
    [useState], [ambient] what [useTheme()] yields. *)
Definition Sample `{Themes} (props : Props) (theme : ThemeName) (ambient : Theme) : View :=
  let showThemeSwitcher := default false (showThemeSwitcher props) in
  let noBorder := default false (noBorder props) in
  let themeObject :=
    if showThemeSwitcher then
      if bool_decide (theme = light) then lightTheme else darkTheme
    else ambient in
  element "Wrap" []
    [if showThemeSwitcher then
       element "ThemeSwitcher" []
         [element "ThemeSwitcherButton"
            [("active", Bool (bool_decide (theme = light))); ("onClick", Handler light)]
            [text "Light";
             element "ThemeSwitcherLine"
               [("active", Bool (bool_decide (theme = light))); ("noBorder", Bool noBorder)]
               []];
          element "ThemeSwitcherButton"
            [("active", Bool (bool_decide (theme = dark))); ("onClick", Handler dark)]
            [text "Dark";
             element "ThemeSwitcherLine"
               [("active", Bool (bool_decide (theme = dark))); ("noBorder", Bool noBorder)]
               []]]
     else empty;
     element "ThemeProvider" [("theme", Obj themeObject)]
       [element "InnerWrap"
          [("noBorder", Bool noBorder); ("increaseMarginTop", Bool showThemeSwitcher)]
          [element "ThemeContext.Provider" [("value", Str (themeString theme))]
             [children props theme]]]].

(** [toggleTheme] of the sample with the moon button: the name it hands
    to [setTheme]. *)
Definition toggleTheme (theme : ThemeName) : ThemeName :=
  if bool_decide (theme = light) then dark else light.

(** [Sample] with the moon button that toggles the theme. *)
Definition SampleToggle `{Themes} (props : Props) (theme : ThemeName) (ambient : Theme)
    : View :=
  let showThemeSwitcher := default false (showThemeSwitcher props) in
  let noBorder := default false (noBorder props) in
  let themeObject :=
    if showThemeSwitcher then
      if bool_decide (theme = light) then lightTheme else darkTheme
    else ambient in
  element "Wrap" []
    [if showThemeSwitcher then
       element "ThemeSwitcher" []
         [element "ThemeSwitcherButton"
            [("onClick", Handler (toggleTheme theme));
             ("active", Bool (bool_decide (theme = dark)))]
            [element "IconMoon" [] []]]
     else empty;
     element "ThemeProvider" [("theme", Obj themeObject)]
       [element "InnerWrap"
          [("noBorder", Bool noBorder); ("increaseMarginTop", Bool showThemeSwitcher)]
          [element "ThemeContext.Provider" [("value", Str (themeString theme))]
             [children props theme]]]].

(** The first child of a sample is its switcher, the second the
    provider of its theme object. *)
Definition switcher `{Themes} (view : View) : View :=
  match view with element _ _ (first :: _) => first | _ => empty end.

Definition themeProvider `{Themes} (view : View) : View :=
  match view with element _ _ (_ :: second :: _) => second | _ => empty end.

(** The names that the buttons of the switcher hand to [setTheme]. *)
Definition clicks `{Themes} (view : View) : list ThemeName := handlers (switcher view).

(** The themes a sample can be in: it starts light, and a click on a
    button of its switcher sets the theme of that button. *)
Inductive reachable `{Themes} (render : ThemeName → View) : ThemeName → Prop :=
| reachable_initial : reachable render light
| reachable_click theme next :
    reachable render theme →
    next ∈ clicks (render theme) →
    reachable render next.

(** The theme after a number of clicks on the first button of the
    switcher, if there is a button each time. *)
Fixpoint afterClicks `{Themes} (render : ThemeName → View) (n : nat) : option ThemeName :=
  match n with
  | 0 => Some light
  | S n => theme ← afterClicks render n; head (clicks (render theme))
  end.

Record ColorDefinition := color {
  name : string;
  lightValue : string;
  darkValue : string;
  useFor : string
}.

(** [theme === 'light' ? c.lightValue : c.darkValue] *)
Definition colorValue (theme : ThemeName) (c : ColorDefinition) : string :=
  if bool_decide (theme = light) then lightValue c else darkValue c.

(** [theme] is what [useContext(ThemeContext)] yields. *)
Definition ColorTable `{Themes} (colors : list ColorDefinition) (theme : ThemeName) : View :=
  element "Table" []
    [element "TableHead" []
       [element "TableRow" []
          [element "TableHeadCell" [] [text "Color"];
           element "TableHeadCell" [] [text "Name"];
           element "TableHeadCell" [] [text "Usage"]]];
     element "TableBody" []
       (map (λ c,
          let colorValue := colorValue theme c in
          element "TableRow" [("key", Str (name c))]
            [element "TableCell" [("morePadding", Bool true); ("verticalAlign", Str "top")]
               [element "ColorChip"
                  [("value", Str colorValue); ("size", Str "lg");
                   ("noMargin", Bool true); ("noText", Bool true)]
                  []];
             element "TableCell" [("morePadding", Bool true); ("verticalAlign", Str "top")]
               [element "ColorName" [] [text (name c)];
                element "ColorValue" [] [text colorValue]];
             element "TableCell" [("morePadding", Bool true); ("verticalAlign", Str "top")]
               [text (useFor c)]])
          colors)].

Definition neutralColors : list ColorDefinition :=
  [color "Gray 500" "#2B2233" "#EBE6EF" "Headings, button labels";
   color "Gray 400" "#4D4158" "#D6D0DC" "Body text";
   color "Gray 300" "#80708F" "#998DA5" "Placeholders, small labels";
   color "Gray 200" "#DBD6E1" "#43384C" "Lines, borders";
   color "Gray 100" "#EBE6EF" "#342B3B" "Lines, borders"].

Definition accentColors : list ColorDefinition :=
  [color "Purple 300" "rgba(108, 95, 199, 1)" "rgba(118, 105, 211, 1)" "Active states – text, background fill";
   color "Purple 200" "rgba(108, 95, 199, 0.5)" "rgba(118, 105, 211, 0.4)" "Active states – borders, outlines";
   color "Purple 100" "rgba(108, 95, 199, 0.1)" "rgba(118, 105, 211, 0.06)" "Active states – background fill";
   color "Blue 300" "rgba(61, 116, 219, 1)" "rgba(92, 149, 255, 1)" "Links - text";
   color "Blue 200" "rgba(61, 116, 219, 0.5)" "rgba(92, 149, 255, 0.4)" "Links – underline";
   color "Blue 100" "rgba(61, 116, 219, 0.1)" "rgba(92, 149, 255, 0.06)" "Links – background fill";
   color "Green 300" "rgba(43, 161, 133, 1)" "rgba(42, 200, 163, 1)" "Success";
   color "Green 200" "rgba(43, 161, 133, 0.5)" "rgba(42, 200, 163, 0.4)" "Success";
   color "Green 100" "rgba(43, 161, 133, 0.1)" "rgba(42, 200, 163, 0.06)" "Success";
   color "Yellow 300" "rgba(245, 176, 0, 1)" "rgba(255, 194, 39, 1)" "Warning";
   color "Yellow 200" "rgba(245, 176, 0, 0.5)" "rgba(255, 194, 39, 0.4)" "Warning";
   color "Yellow 100" "rgba(245, 176, 0, 0.1)" "rgba(255, 194, 39, 0.06)" "Warning";
   color "Red 300" "rgba(245, 84, 89, 1)" "rgba(250, 79, 84, 1)" "Error";
   color "Red 200" "rgba(245, 84, 89, 0.5)" "rgba(250, 79, 84, 0.4)" "Error";
   color "Red 100" "rgba(245, 84, 89, 0.1)" "rgba(250, 79, 84, 0.06)" "Error";
   color "Pink 300" "rgba(239, 77, 121, 1)" "rgba(250, 76, 124, 1)" "";
   color "Pink 200" "rgba(239, 77, 121, 0.5)" "rgba(250, 76, 124, 0.4)" "";
   color "Pink 100" "rgba(239, 77, 121, 0.1)" "rgba(250, 76, 124, 0.06)" ""].

Definition NeutralTable `{Themes} (theme : ThemeName) (ambient : Theme) : View :=
  Sample {| children := ColorTable neutralColors;
            showThemeSwitcher := Some true; noBorder := Some true |}
    theme ambient.

Definition AccentTable `{Themes} (theme : ThemeName) (ambient : Theme) : View :=
  Sample {| children := ColorTable accentColors;
            showThemeSwitcher := Some true; noBorder := Some true |}
    theme ambient.

(** *** Sample data *)

Definition sampleThemes : Themes :=
  {| Theme := string; lightTheme := "lightTheme"; darkTheme := "darkTheme" |}.

End DocsUi.

(** ** Rendering under the theme in tests *)

Module TestUtils.

Import Jsx.

(** What the providers hold: the child context of the definitions given
    and its types, the style cache, the light theme. *)
Inductive Provided (Defs : Type) :=
| ChildContextTypes (contextDefs : Defs)
| ChildContext (contextDefs : Defs)
| Cache
| LightTheme.
Arguments ChildContextTypes {Defs} contextDefs.
Arguments ChildContext {Defs} contextDefs.
Arguments Cache {Defs}.
Arguments LightTheme {Defs}.

(** Modelled from the spec: the testing library is not among the
    sources; of its options only the wrapper is looked at here. *)
Class Library := {
  Defs : Type;
  Container : Type;
  Queries : Type;
  RenderResult : Type
}.

Abbreviation View := (Element Empty_set (Provided Defs)).

(** A component that wraps its children. *)
Abbreviation Component := (View → View).

Record RenderOptions `{Library} := {
  container : option Container;
  baseElement : option Container;
  hydrate : option bool;
  queries : option Queries;
  wrapper : option Component
}.

(** [RenderOptions & {context?: Record<string, any>}] *)
Record ContextRenderOptions `{Library} := {
  context : option Defs;
  otherOptions : RenderOptions
}.

(** The component of the class that [createProvider] returns: it holds
    the child context and its types and renders its children. *)
Definition createProvider `{Library} (contextDefs : Defs) : Component :=
  λ children,
    element "ContextProvider"
      [("childContextTypes", Obj (ChildContextTypes contextDefs));
       ("getChildContext", Obj (ChildContext contextDefs))]
      [children].

Definition Fragment `{Library} : Component := λ children, element "Fragment" [] [children].

Definition makeAllTheProviders `{Library} (context : option Defs) : Component :=
  λ children,
    let ContextProvider :=
      match context with
      | Some contextDefs => createProvider contextDefs
      | None => Fragment
      end in
    ContextProvider
      (element "CacheProvider" [("value", Obj Cache)]
         [element "ThemeProvider" [("theme", Obj LightTheme)] [children]]).

(** [{}] *)
Definition noOptions `{Library} : ContextRenderOptions :=
  {| context := None;
     otherOptions :=
       {| container := None; baseElement := None; hydrate := None;
          queries := None; wrapper := None |} |}.

(** [render] is the one of the testing library. *)
Definition mountWithTheme `{Library} (render : View → RenderOptions → RenderResult)
    (ui : View) (options : option ContextRenderOptions) : RenderResult :=
  let options := nullish options noOptions in
  let context := context options in
  let otherOptions := otherOptions options in
  let AllTheProviders := makeAllTheProviders context in
  render ui
    {| wrapper := Some (default AllTheProviders (wrapper otherOptions));
       container := container otherOptions;
       baseElement := baseElement otherOptions;
       hydrate := hydrate otherOptions;
       queries := queries otherOptions |}.

(** *** Sample data *)

Definition sampleLibrary : Library :=
  {| Defs := string; Container := string; Queries := string; RenderResult := string |}.

End TestUtils.

(** * Properties of the resolution banner *)

Section ResolutionBoxProperties.

Import ResolutionBox.

Implicit Types (statusDetails : ResolutionStatusDetails) (projectId : string).
Implicit Types (activities : list GroupActivity) (user : AvatarUser).
Implicit Types (entry : GroupActivity).

(** Every shape a status can have as far as conditions look at it:
    actor there or not; flag absent, false or true; version absent,
    empty or not; commit there or not. *)
Ltac status_cases sd :=
  destruct sd as [[?user|] [[|]|] [[|?ch ?rest]|] [?commit|]].

(** ** The scan of the history *)

Lemma relevantActivity_nil : relevantActivity [] = None.
Proof. reflexivity. Qed.

Lemma relevantActivity_cons entry activities :
  relevantActivity (entry :: activities)
  = if decide (type entry = SET_RESOLVED_IN_RELEASE) then Some entry
    else relevantActivity activities.
Proof.
  unfold relevantActivity. simpl.
  destruct (decide (type entry = SET_RESOLVED_IN_RELEASE)) as [Heq|Hne].
  - by rewrite bool_decide_eq_true_2.
  - by rewrite bool_decide_eq_false_2.
Qed.

(** The scan stops at the first entry of the type. *)
Lemma relevantActivity_first (before after : list GroupActivity) entry :
  Forall (λ e, type e ≠ SET_RESOLVED_IN_RELEASE) before →
  type entry = SET_RESOLVED_IN_RELEASE →
  relevantActivity (before ++ entry :: after) = Some entry.
Proof.
  intros Hbefore Hentry.
  induction Hbefore as [|e before He _ IH]; cbn [app];
    rewrite relevantActivity_cons.
  - by rewrite decide_True.
  - by rewrite decide_False.
Qed.

(** Without an entry of the type the scan finds nothing. *)
Lemma relevantActivity_none activities :
  Forall (λ e, type e ≠ SET_RESOLVED_IN_RELEASE) activities →
  relevantActivity activities = None.
Proof.
  induction 1 as [|e activities He _ IH]; [done|].
  rewrite relevantActivity_cons. by rewrite decide_False.
Qed.

(** What the scan found is an entry of the type with none before it. *)
Lemma relevantActivity_Some activities entry :
  relevantActivity activities = Some entry →
  ∃ before after,
    activities = before ++ entry :: after
    ∧ Forall (λ e, type e ≠ SET_RESOLVED_IN_RELEASE) before
    ∧ type entry = SET_RESOLVED_IN_RELEASE.
Proof.
  induction activities as [|e activities IH]; [done|].
  rewrite relevantActivity_cons.
  destruct (decide (type e = SET_RESOLVED_IN_RELEASE)) as [Heq|Hne].
  - intros [= ->]. by exists [], activities.
  - intros (before & after & -> & Hbefore & Hentry)%IH.
    exists (e :: before), after. by repeat split; [constructor|].
Qed.

Lemma currentReleaseVersion_first (before after : list GroupActivity) entry :
  Forall (λ e, type e ≠ SET_RESOLVED_IN_RELEASE) before →
  type entry = SET_RESOLVED_IN_RELEASE →
  currentReleaseVersion (before ++ entry :: after)
  = current_release_version (data entry).
Proof.
  intros Hbefore Hentry. unfold currentReleaseVersion.
  by rewrite relevantActivity_first.
Qed.

(** ** The message of each branch *)

(** The history reaches the message only through the version found. *)
Lemma renderReason_currentReleaseVersion statusDetails projectId activities activities' :
  currentReleaseVersion activities = currentReleaseVersion activities' →
  renderReason statusDetails projectId activities
  = renderReason statusDetails projectId activities'.
Proof. unfold renderReason. by intros ->. Qed.

(** The message is the one of the condition that matches first. *)
Lemma renderReason_condition statusDetails projectId activities :
  (λ node, condition <$> messageOf node) <$> renderReason statusDetails projectId activities
  = Normal (Some (firstMatch statusDetails)).
Proof.
  unfold renderReason.
  status_cases statusDetails; simpl;
    try reflexivity; by destruct (toBoolean (currentReleaseVersion activities)).
Qed.

Lemma renderReason_upcoming_actor statusDetails projectId activities user :
  inNextRelease statusDetails = Some true →
  actor statusDetails = Some user →
  renderReason statusDetails projectId activities
  = Normal (tct "[actor] marked this issue as resolved in the upcoming release."
                [("actor", actorReference user)]).
Proof.
  destruct statusDetails as [? ? ? ?]; simpl. by intros -> ->.
Qed.

Lemma renderReason_release_actor statusDetails projectId activities user v :
  toBoolean (inNextRelease statusDetails) = false →
  inRelease statusDetails = Some v →
  v ≠ "" →
  actor statusDetails = Some user →
  renderReason statusDetails projectId activities
  = Normal
      (if toBoolean (currentReleaseVersion activities) then
         tct "[actor] marked this issue as resolved in versions greater than [version]."
             [("actor", actorReference user);
              ("version", Version (currentReleaseVersion activities) projectId true)]
       else
         tct "[actor] marked this issue as resolved in version [version]."
             [("actor", actorReference user);
              ("version", versionReference v projectId)]).
Proof.
  destruct statusDetails as [? ? ? ?]; simpl. intros Hnext -> Hv ->.
  unfold renderReason; simpl. rewrite Hnext.
  by destruct v.
Qed.

Lemma renderReason_commit statusDetails projectId activities commit :
  toBoolean (inNextRelease statusDetails) = false →
  toBoolean (inRelease statusDetails) = false →
  inCommit statusDetails = Some commit →
  renderReason statusDetails projectId activities
  = Normal (tct "This issue has been marked as resolved by [commit]"
                [("commit", commitReference commit)]).
Proof.
  destruct statusDetails as [a n r c]; simpl. intros Hnext Hrelease ->.
  unfold renderReason; simpl. rewrite Hnext, Hrelease.
  by destruct a.
Qed.

Lemma renderReason_fallback statusDetails projectId activities :
  toBoolean (inNextRelease statusDetails) = false →
  toBoolean (inRelease statusDetails) = false →
  toBoolean (inCommit statusDetails) = false →
  renderReason statusDetails projectId activities
  = Normal (t "This issue has been marked as resolved.").
Proof.
  destruct statusDetails as [a n r c]; simpl. intros Hnext Hrelease Hcommit.
  unfold renderReason; simpl. rewrite Hnext, Hrelease, Hcommit.
  by destruct a.
Qed.

(** Each of the eight messages is reached, by its [sampleInput]. *)
Lemma renderReason_sampleInput m :
  templateOf <$> renderReason (sampleInput m).1 "sentry" (sampleInput m).2
  = Normal (Some (template m)).
Proof. by destruct m. Qed.

Lemma template_inj : Inj (=) (=) template.
Proof. intros m1 m2 Heq. by destruct m1, m2. Qed.

Lemma NoDup_messages : NoDup messages.
Proof.
  apply (bool_decide_unpack _). by vm_compute.
Qed.

Lemma NoDup_templates : NoDup (template <$> messages).
Proof. apply (@NoDup_fmap_2 _ _ template template_inj), NoDup_messages. Qed.

(** ** The claims *)

(** C1: [renderReason] picks its message by the first condition that
    holds in the order next release, release, commit, generic message;
    when [inNextRelease] is true and an actor is there, the message is
    the one of the upcoming release with the actor, whatever
    [inRelease] and [inCommit] hold. *)
Theorem renderReason_priority statusDetails projectId activities :
  (λ node, condition <$> messageOf node) <$> renderReason statusDetails projectId activities
  = Normal (Some (firstMatch statusDetails))
  ∧ ∀ user,
      inNextRelease statusDetails = Some true →
      actor statusDetails = Some user →
      renderReason statusDetails projectId activities
      = Normal (tct "[actor] marked this issue as resolved in the upcoming release."
                    [("actor", actorReference user)]).
Proof.
  split; [apply renderReason_condition|].
  intros user. apply renderReason_upcoming_actor.
Qed.

(** A status with every field set: the next release still wins. *)
Lemma renderReason_priority_witness :
  renderReason
    {| actor := Some alice; inNextRelease := Some true;
       inRelease := Some "1.2.0"; inCommit := Some sampleCommit |}
    "sentry" [resolvedInRelease (Some "1.3.0")]
  = Normal (tct "[actor] marked this issue as resolved in the upcoming release."
                [("actor", actorReference alice)]).
Proof.
  apply (proj2 (renderReason_priority
                  {| actor := Some alice; inNextRelease := Some true;
                     inRelease := Some "1.2.0"; inCommit := Some sampleCommit |}
                  "sentry" [resolvedInRelease (Some "1.3.0")]) alice);
    reflexivity.
Defined.

(** C2, as stated, fails twice: an entry of the type that carries no
    version hides a later one that does, since the scan stops at the
    first; and an [inRelease] that is set to the empty string is
    falsy, so that no release message is shown at all. *)
Lemma versions_greater_than_counterexample :
  (let statusDetails :=
     {| actor := Some alice; inNextRelease := None;
        inRelease := Some "1.2.0"; inCommit := None |} in
   let activities := [resolvedInRelease None; resolvedInRelease (Some "1.3.0")] in
   (toBoolean (inNextRelease statusDetails) = false
    ∧ inRelease statusDetails = Some "1.2.0"
    ∧ actor statusDetails = Some alice
    ∧ resolvedInRelease (Some "1.3.0") ∈ activities
    ∧ type (resolvedInRelease (Some "1.3.0")) = SET_RESOLVED_IN_RELEASE
    ∧ current_release_version (data (resolvedInRelease (Some "1.3.0"))) = Some "1.3.0"
    ∧ "1.3.0" ≠ "")
   ∧ renderReason statusDetails "sentry" activities
     = Normal (tct "[actor] marked this issue as resolved in version [version]."
                   [("actor", actorReference alice);
                    ("version", versionReference "1.2.0" "sentry")])
   ∧ renderReason statusDetails "sentry" activities
     ≠ Normal (tct "[actor] marked this issue as resolved in versions greater than [version]."
                   [("actor", actorReference alice);
                    ("version", versionReference "1.3.0" "sentry")]))
  ∧
  (let statusDetails :=
     {| actor := Some alice; inNextRelease := None;
        inRelease := Some ""; inCommit := None |} in
   let activities := [resolvedInRelease (Some "1.3.0")] in
   (toBoolean (inNextRelease statusDetails) = false
    ∧ inRelease statusDetails = Some ""
    ∧ actor statusDetails = Some alice
    ∧ resolvedInRelease (Some "1.3.0") ∈ activities
    ∧ type (resolvedInRelease (Some "1.3.0")) = SET_RESOLVED_IN_RELEASE
    ∧ current_release_version (data (resolvedInRelease (Some "1.3.0"))) = Some "1.3.0"
    ∧ "1.3.0" ≠ "")
   ∧ renderReason statusDetails "sentry" activities
     = Normal (t "This issue has been marked as resolved.")
   ∧ renderReason statusDetails "sentry" activities
     ≠ Normal (tct "[actor] marked this issue as resolved in versions greater than [version]."
                   [("actor", actorReference alice);
                    ("version", versionReference "1.3.0" "sentry")])).
Proof.
  repeat split; try done; set_solver.
Qed.

(** C2, amended: when [inNextRelease] is false or absent, [inRelease]
    is a non-empty string, an actor is there, and the first entry of
    type set-resolved-in-release of the history has a non-empty
    [current_release_version], the message is the actor's "versions
    greater than" one, with that [current_release_version] and not
    [inRelease] as its version. *)
Theorem renderReason_versions_greater_than
    statusDetails projectId (before after : list GroupActivity) entry user v current :
  toBoolean (inNextRelease statusDetails) = false →
  inRelease statusDetails = Some v →
  v ≠ "" →
  actor statusDetails = Some user →
  Forall (λ e, type e ≠ SET_RESOLVED_IN_RELEASE) before →
  type entry = SET_RESOLVED_IN_RELEASE →
  current_release_version (data entry) = Some current →
  current ≠ "" →
  renderReason statusDetails projectId (before ++ entry :: after)
  = Normal (tct "[actor] marked this issue as resolved in versions greater than [version]."
                [("actor", actorReference user);
                 ("version", versionReference current projectId)]).
Proof.
  intros Hnext Hrelease Hv Hactor Hbefore Hentry Hcurrent Hne.
  rewrite (renderReason_release_actor _ _ _ user v) by done.
  rewrite currentReleaseVersion_first, Hcurrent by done.
  by destruct current.
Qed.

(** The history of the specification's scenario, behind a note. *)
Lemma renderReason_versions_greater_than_witness :
  renderReason
    {| actor := Some alice; inNextRelease := Some false;
       inRelease := Some "1.2.0"; inCommit := None |}
    "sentry" ([note] ++ resolvedInRelease (Some "1.3.0") :: [resolvedInRelease None])
  = Normal (tct "[actor] marked this issue as resolved in versions greater than [version]."
                [("actor", actorReference alice);
                 ("version", versionReference "1.3.0" "sentry")]).
Proof.
  apply (renderReason_versions_greater_than _ "sentry" [note] _ _ alice "1.2.0" "1.3.0");
    try done.
  by repeat constructor.
Defined.

(** C3: when [inNextRelease] is false or absent, [inRelease] is set
    (the condition on it holds: it is a version, and not the empty
    string), an actor is there, and the history is empty, or has no
    entry of type set-resolved-in-release, or the entry found has no
    [current_release_version], the message is the actor's "version"
    one with the stored [inRelease] as its version. *)
Theorem renderReason_raw_version statusDetails projectId activities user v :
  toBoolean (inNextRelease statusDetails) = false →
  inRelease statusDetails = Some v →
  toBoolean (inRelease statusDetails) = true →
  actor statusDetails = Some user →
  activities = []
  ∨ Forall (λ e, type e ≠ SET_RESOLVED_IN_RELEASE) activities
  ∨ (∃ entry, relevantActivity activities = Some entry
              ∧ current_release_version (data entry) = None) →
  renderReason statusDetails projectId activities
  = Normal (tct "[actor] marked this issue as resolved in version [version]."
                [("actor", actorReference user);
                 ("version", versionReference v projectId)]).
Proof.
  intros Hnext Hrelease Hset Hactor Hhistory.
  assert (v ≠ "") as Hv.
  { rewrite Hrelease in Hset. by destruct v. }
  rewrite (renderReason_release_actor _ _ _ user v) by done.
  assert (currentReleaseVersion activities = None) as ->; [|done].
  unfold currentReleaseVersion.
  destruct Hhistory as [->|[Hnone|(entry & -> & Hcurrent)]]; [done| |done].
  by rewrite relevantActivity_none.
Qed.

(** The first scenario of the specification: Alice, 1.2.0, no history. *)
Lemma renderReason_raw_version_witness :
  renderReason
    {| actor := Some alice; inNextRelease := None;
       inRelease := Some "1.2.0"; inCommit := None |}
    "sentry" []
  = Normal (tct "[actor] marked this issue as resolved in version [version]."
                [("actor", actorReference alice);
                 ("version", versionReference "1.2.0" "sentry")]).
Proof.
  apply (renderReason_raw_version _ "sentry" [] alice "1.2.0"); try done.
  by left.
Defined.

(** C4: when [inNextRelease] and [inRelease] are unset or false and
    [inCommit] is set, the message is "This issue has been marked as
    resolved by [commit]" with the commit's id, its repository and the
    time since its [dateCreated]; it binds no actor and no version,
    whether an actor is there or not. *)
Theorem renderReason_in_commit statusDetails projectId activities commit :
  toBoolean (inNextRelease statusDetails) = false →
  toBoolean (inRelease statusDetails) = false →
  inCommit statusDetails = Some commit →
  renderReason statusDetails projectId activities
  = Normal (tct "This issue has been marked as resolved by [commit]"
                [("commit",
                  Fragment [CommitLink (id commit) (repository commit);
                            StyledTimeSince (dateCreated commit)])])
  ∧ placeholders <$> renderReason statusDetails projectId activities
    = Normal ["commit"].
Proof.
  intros Hnext Hrelease Hcommit.
  by rewrite (renderReason_commit _ _ _ commit).
Qed.

(** A commit resolved the issue, and an actor is there. *)
Lemma renderReason_in_commit_witness :
  renderReason
    {| actor := Some alice; inNextRelease := Some false;
       inRelease := None; inCommit := Some sampleCommit |}
    "sentry" [resolvedInRelease (Some "1.3.0")]
  = Normal (tct "This issue has been marked as resolved by [commit]"
                [("commit",
                  Fragment [CommitLink "f3a9c1e" {| repository_name := "getsentry/sentry" |};
                            StyledTimeSince "2021-08-02T10:00:00Z"])]).
Proof.
  apply (renderReason_in_commit
           {| actor := Some alice; inNextRelease := Some false;
              inRelease := None; inCommit := Some sampleCommit |}
           "sentry" [resolvedInRelease (Some "1.3.0")] sampleCommit);
    reflexivity.
Defined.

(** C5: when none of [inNextRelease], [inRelease] and [inCommit] is
    set (each is absent, or false, or empty), the message is exactly
    "This issue has been marked as resolved.", for any actor and any
    history. *)
Theorem renderReason_generic statusDetails projectId activities :
  toBoolean (inNextRelease statusDetails) = false →
  toBoolean (inRelease statusDetails) = false →
  toBoolean (inCommit statusDetails) = false →
  renderReason statusDetails projectId activities
  = Normal (t "This issue has been marked as resolved.").
Proof. apply renderReason_fallback. Qed.

(** Only an actor and a history: the generic message. *)
Lemma renderReason_generic_witness :
  renderReason
    {| actor := Some alice; inNextRelease := None;
       inRelease := None; inCommit := None |}
    "sentry" [resolvedInRelease (Some "1.3.0")]
  = Normal (t "This issue has been marked as resolved.").
Proof.
  apply (renderReason_generic
           {| actor := Some alice; inNextRelease := None;
              inRelease := None; inCommit := None |}
           "sentry" [resolvedInRelease (Some "1.3.0")]);
    reflexivity.
Defined.

(** C6: a status whose first matching condition is the next release,
    the commit or the generic one yields the same message for any two
    histories: the version found in the history reaches the release
    messages only. *)
Theorem renderReason_history_irrelevant statusDetails projectId activities activities' :
  firstMatch statusDetails ≠ Release →
  renderReason statusDetails projectId activities
  = renderReason statusDetails projectId activities'.
Proof.
  unfold firstMatch, renderReason.
  status_cases statusDetails; simpl; done.
Qed.

(** A commit message under two histories that find different versions. *)
Lemma renderReason_history_irrelevant_witness :
  renderReason
    {| actor := Some alice; inNextRelease := None;
       inRelease := None; inCommit := Some sampleCommit |}
    "sentry" [resolvedInRelease (Some "1.3.0")]
  = renderReason
      {| actor := Some alice; inNextRelease := None;
         inRelease := None; inCommit := Some sampleCommit |}
      "sentry" [].
Proof.
  apply (renderReason_history_irrelevant
           {| actor := Some alice; inNextRelease := None;
              inRelease := None; inCommit := Some sampleCommit |}
           "sentry" [resolvedInRelease (Some "1.3.0")] []).
  vm_compute. discriminate.
Defined.

(** [renderReason] returns, and its message is the [selected] one. *)
Lemma renderReason_selected statusDetails projectId activities :
  ∃ node,
    renderReason statusDetails projectId activities = Normal node
    ∧ templateOf node
      = Some (template (selected statusDetails (currentReleaseVersion activities)))
    ∧ messageOf node
      = Some (selected statusDetails (currentReleaseVersion activities)).
Proof.
  unfold renderReason, selected.
  destruct (currentReleaseVersion activities) as [[|? ?]|];
    status_cases statusDetails; simpl; by eexists.
Qed.

Ltac by_decision := apply (bool_decide_unpack _); by vm_compute.

Lemma selected_no_actor statusDetails current :
  actor statusDetails = None →
  selected statusDetails current ∈ [Upcoming; GreaterThan; InVersion; ByCommit; Resolved].
Proof.
  unfold selected. intros ->.
  destruct (toBoolean (inNextRelease statusDetails)),
    (toBoolean (inRelease statusDetails)), (toBoolean (inCommit statusDetails)),
    (toBoolean current); simpl; by_decision.
Qed.

Lemma selected_no_version statusDetails :
  selected statusDetails None ∉ [GreaterThanByActor; GreaterThan].
Proof.
  unfold selected.
  destruct (toBoolean (inNextRelease statusDetails)),
    (toBoolean (inRelease statusDetails)), (toBoolean (inCommit statusDetails)),
    (toBoolean (actor statusDetails)); simpl; by_decision.
Qed.

Lemma selected_nothing_set statusDetails current :
  inNextRelease statusDetails = None →
  inRelease statusDetails = None →
  inCommit statusDetails = None →
  selected statusDetails current = Resolved.
Proof. unfold selected. by intros -> -> ->. Qed.

(** C7, as stated, counts seven messages; no seven cover what
    [renderReason] yields, since it has eight different ones and each
    is reached. *)
Lemma seven_messages_counterexample :
  ¬ ∃ branches : list string,
      length branches = 7
      ∧ ∀ statusDetails projectId activities,
          ∃ node s,
            renderReason statusDetails projectId activities = Normal node
            ∧ templateOf node = Some s
            ∧ s ∈ branches.
Proof.
  intros (branches & Hlength & Hcover).
  assert (template <$> messages ⊆+ branches) as Hsub.
  { apply NoDup_submseteq; [apply NoDup_templates|].
    intros ? (m & -> & _)%list_elem_of_fmap.
    destruct (Hcover (sampleInput m).1 "sentry" (sampleInput m).2)
      as (node & s & Hnode & Hs & Hin).
    pose proof (renderReason_sampleInput m) as Hm.
    rewrite Hnode in Hm. simpl in Hm. congruence. }
  apply submseteq_length in Hsub.
  rewrite length_fmap, Hlength in Hsub. simpl in Hsub. lia.
Qed.

(** C7, amended: [renderReason] never throws and yields, for every
    status and every history, exactly one of its eight messages (six
    guarded returns, the two on [inRelease] with two texts each, the
    texts all different). Absent fields degrade: without an actor the
    message is a passive one, without a version found in the history
    it is not a "versions greater than" one, and without any of
    [inNextRelease], [inRelease] and [inCommit] it is the generic one. *)
Theorem renderReason_total :
  length messages = 8
  ∧ NoDup (template <$> messages)
  ∧ ∀ statusDetails projectId activities,
      ∃ node m,
        renderReason statusDetails projectId activities = Normal node
        ∧ templateOf node = Some (template m)
        ∧ messageOf node = Some m
        ∧ (actor statusDetails = None →
           m ∈ [Upcoming; GreaterThan; InVersion; ByCommit; Resolved])
        ∧ (currentReleaseVersion activities = None →
           m ∉ [GreaterThanByActor; GreaterThan])
        ∧ (inNextRelease statusDetails = None →
           inRelease statusDetails = None →
           inCommit statusDetails = None →
           m = Resolved).
Proof.
  split; [done|]. split; [apply NoDup_templates|].
  intros statusDetails projectId activities.
  destruct (renderReason_selected statusDetails projectId activities)
    as (node & Hnode & Htemplate & Hmessage).
  exists node, (selected statusDetails (currentReleaseVersion activities)).
  repeat split; try done.
  - apply selected_no_actor.
  - intros ->. apply selected_no_version.
  - apply selected_nothing_set.
Qed.

(** A history with an entry of the type has a first one. *)
Lemma relevantActivity_exists activities :
  Exists (λ e, type e = SET_RESOLVED_IN_RELEASE) activities →
  ∃ entry, relevantActivity activities = Some entry.
Proof.
  induction activities as [|e activities IH]; intros Hexists.
  - by apply Exists_nil in Hexists.
  - rewrite relevantActivity_cons.
    destruct (decide (type e = SET_RESOLVED_IN_RELEASE)) as [Heq|Hne]; [by eexists|].
    apply Exists_cons in Hexists as [?|?]; [done|by apply IH].
Qed.

(** The two messages of a release, by the actor or not, with the
    version found in the history if it is not empty and the stored one
    otherwise. *)
Lemma renderReason_release statusDetails projectId activities v :
  toBoolean (inNextRelease statusDetails) = false →
  inRelease statusDetails = Some v →
  v ≠ "" →
  renderReason statusDetails projectId activities
  = Normal
      (let shown :=
         if toBoolean (currentReleaseVersion activities)
         then Version (currentReleaseVersion activities) projectId true
         else versionReference v projectId in
       match actor statusDetails with
       | Some user =>
           tct (if toBoolean (currentReleaseVersion activities)
                then "[actor] marked this issue as resolved in versions greater than [version]."
                else "[actor] marked this issue as resolved in version [version].")
               [("actor", actorReference user); ("version", shown)]
       | None =>
           tct (if toBoolean (currentReleaseVersion activities)
                then "This issue has been marked as resolved in versions greater than [version]."
                else "This issue has been marked as resolved in version [version].")
               [("version", shown)]
       end).
Proof.
  destruct statusDetails as [a n r c]; simpl. intros Hnext -> Hv.
  unfold renderReason; simpl. rewrite Hnext.
  destruct v as [|? ?]; [done|].
  by destruct a, (toBoolean (currentReleaseVersion activities)).
Qed.

(** C8: the scan of the history returns the first entry of type
    set-resolved-in-release in the order of the list: whatever comes
    after it, further entries of the type included, the
    [current_release_version] that [renderReason] uses is the one of
    that first entry. When [inRelease] decides the message, the version
    that the message shows is the one of that first entry if it has a
    non-empty one, and the stored [inRelease] if it has none, also when
    a later entry has one. *)
Theorem renderReason_first_entry (before after : list GroupActivity) entry :
  Forall (λ e, type e ≠ SET_RESOLVED_IN_RELEASE) before →
  type entry = SET_RESOLVED_IN_RELEASE →
  relevantActivity (before ++ entry :: after) = Some entry
  ∧ currentReleaseVersion (before ++ entry :: after)
    = current_release_version (data entry)
  ∧ (∀ statusDetails projectId,
       renderReason statusDetails projectId (before ++ entry :: after)
       = renderReason statusDetails projectId [entry])
  ∧ (∀ statusDetails projectId v current,
       toBoolean (inNextRelease statusDetails) = false →
       inRelease statusDetails = Some v →
       v ≠ "" →
       current_release_version (data entry) = Some current →
       current ≠ "" →
       renderReason statusDetails projectId (before ++ entry :: after)
       = Normal
           match actor statusDetails with
           | Some user =>
               tct "[actor] marked this issue as resolved in versions greater than [version]."
                   [("actor", actorReference user);
                    ("version", versionReference current projectId)]
           | None =>
               tct "This issue has been marked as resolved in versions greater than [version]."
                   [("version", versionReference current projectId)]
           end)
  ∧ (∀ statusDetails projectId v,
       toBoolean (inNextRelease statusDetails) = false →
       inRelease statusDetails = Some v →
       v ≠ "" →
       toBoolean (current_release_version (data entry)) = false →
       renderReason statusDetails projectId (before ++ entry :: after)
       = Normal
           match actor statusDetails with
           | Some user =>
               tct "[actor] marked this issue as resolved in version [version]."
                   [("actor", actorReference user);
                    ("version", versionReference v projectId)]
           | None =>
               tct "This issue has been marked as resolved in version [version]."
                   [("version", versionReference v projectId)]
           end).
Proof.
  intros Hbefore Hentry.
  pose proof (currentReleaseVersion_first before after entry Hbefore Hentry) as Hfound.
  split; [by apply relevantActivity_first|]. split; [done|]. split; [|split].
  - intros statusDetails projectId. apply renderReason_currentReleaseVersion.
    rewrite Hfound. symmetry. by apply (currentReleaseVersion_first [] []).
  - intros statusDetails projectId v current Hnext Hrelease Hv Hcurrent Hne.
    rewrite (renderReason_release _ _ _ v) by done.
    rewrite Hfound, Hcurrent.
    destruct current as [|? ?]; [done|]. by destruct (actor statusDetails).
  - intros statusDetails projectId v Hnext Hrelease Hv Hfalsy.
    rewrite (renderReason_release _ _ _ v) by done.
    rewrite Hfound, Hfalsy. by destruct (actor statusDetails).
Qed.

(** Two entries of the type after a note: the message shows 1.3.0 of
    the first, not 1.4.0 of the last. *)
Lemma renderReason_first_entry_witness :
  currentReleaseVersion
    ([note] ++ resolvedInRelease (Some "1.3.0") :: [resolvedInRelease (Some "1.4.0")])
  = Some "1.3.0"
  ∧ renderReason
      {| actor := Some alice; inNextRelease := None;
         inRelease := Some "1.2.0"; inCommit := None |}
      "sentry"
      ([note] ++ resolvedInRelease (Some "1.3.0") :: [resolvedInRelease (Some "1.4.0")])
    = Normal (tct "[actor] marked this issue as resolved in versions greater than [version]."
                  [("actor", actorReference alice);
                   ("version", versionReference "1.3.0" "sentry")]).
Proof.
  destruct (renderReason_first_entry [note] [resolvedInRelease (Some "1.4.0")]
              (resolvedInRelease (Some "1.3.0")))
    as (_ & Hcurrent & _ & Hshown & _).
  - by repeat constructor.
  - reflexivity.
  - split; [exact Hcurrent|].
    apply (Hshown
             {| actor := Some alice; inNextRelease := None;
                inRelease := Some "1.2.0"; inCommit := None |}
             "sentry" "1.2.0" "1.3.0"); done.
Defined.

(** C9: without an [activities] prop the banner takes the empty
    history: it shows the message of
    [renderReason statusDetails projectId []], as with the prop set to
    the empty list, and that message is never a "versions greater
    than" one. *)
Theorem ResolutionBox_default_activities statusDetails projectId :
  let props given :=
    {| props_statusDetails := statusDetails;
       props_projectId := projectId;
       props_activities := given |} in
  ResolutionBox (props None) = banner <$> renderReason statusDetails projectId []
  ∧ ResolutionBox (props None) = ResolutionBox (props (Some []))
  ∧ ∃ node m,
      renderReason statusDetails projectId [] = Normal node
      ∧ ResolutionBox (props None) = Normal (banner node)
      ∧ messageOf node = Some m
      ∧ m ∈ [UpcomingByActor; Upcoming; VersionByActor; InVersion; ByCommit; Resolved].
Proof.
  intros props. unfold ResolutionBox, props; simpl.
  destruct (renderReason_selected statusDetails projectId [])
    as (node & Hnode & _ & Hmessage).
  rewrite Hnode; simpl. repeat split.
  exists node, (selected statusDetails None). repeat split; try done.
  unfold selected.
  destruct (toBoolean (inNextRelease statusDetails)),
    (toBoolean (inRelease statusDetails)), (toBoolean (inCommit statusDetails)),
    (toBoolean (actor statusDetails)); simpl; by_decision.
Qed.

End ResolutionBoxProperties.

(** * Properties of the discover link *)

Section IncidentDiscoverProperties.

Import IncidentDiscover.

Context `{Discover}.

Implicit Types (opts : Opts.t).

(** With non-empty projects, an incident and stats the function
    returns a target whose query holds the time window as interval. *)
Lemma getIncidentDiscoverUrl_built opts project projects incident stats :
  Opts.projects opts = Some (project :: projects) →
  Opts.incident opts = Some incident →
  Opts.stats opts = Some stats →
  ∃ target,
    getIncidentDiscoverUrl opts = Normal (UrlObject target)
    ∧ UrlTarget.query target !! "interval"
      = Some (QString (numberToString (AlertRule.timeWindow (Incident.alertRule incident))
                       +:+ "m")).
Proof.
  destruct opts as [orgSlug ? ? ? extra]; simpl. intros -> -> ->.
  unfold getIncidentDiscoverUrl; simpl.
  destruct (getStartEndFromStats stats) as [start end_]; simpl.
  eexists. split; [reflexivity|]. simpl. apply lookup_insert_eq.
Qed.

Lemma getIncidentDiscoverUrl_missing opts :
  Opts.projects opts = None ∨ Opts.projects opts = Some []
  ∨ Opts.incident opts = None ∨ Opts.stats opts = None →
  getIncidentDiscoverUrl opts = Normal (UrlString "").
Proof.
  destruct opts as [orgSlug [[|project projects]|] [incident|] [stats|] extra];
    simpl; intros [?|[?|[?|?]]]; done.
Qed.

(** C10: [getIncidentDiscoverUrl] returns the string [''] exactly when
    its projects are absent or empty, or its incident is absent, or
    its stats are absent; it builds and returns a target object
    exactly when the projects are there and not empty and the
    incident and the stats are there; it never throws. *)
Theorem getIncidentDiscoverUrl_guard opts :
  (getIncidentDiscoverUrl opts = Normal (UrlString "")
   ↔ Opts.projects opts = None ∨ Opts.projects opts = Some []
     ∨ Opts.incident opts = None ∨ Opts.stats opts = None)
  ∧ ((∃ target, getIncidentDiscoverUrl opts = Normal (UrlObject target))
     ↔ ∃ project projects incident stats,
         Opts.projects opts = Some (project :: projects)
         ∧ Opts.incident opts = Some incident
         ∧ Opts.stats opts = Some stats).
Proof.
  destruct (Opts.projects opts) as [[|project projects]|] eqn:Hprojects;
    destruct (Opts.incident opts) as [incident|] eqn:Hincident;
    destruct (Opts.stats opts) as [stats|] eqn:Hstats;
    try (rewrite getIncidentDiscoverUrl_missing by (rewrite ?Hprojects, ?Hincident, ?Hstats; tauto);
         split; [split; [tauto|done]|];
         split; [by intros [? ?]|by intros (? & ? & ? & ? & ? & ? & ?)]).
  destruct (getIncidentDiscoverUrl_built opts project projects incident stats)
    as (target & -> & _); [done..|].
  split; split.
  - done.
  - by intros [?|[?|[?|?]]].
  - intros _. by exists project, projects, incident, stats.
  - intros _. by exists target.
Qed.

End IncidentDiscoverProperties.

(** * Further properties of the resolution banner *)

Section ResolutionBoxFurther.

Import ResolutionBox ResolutionBoxAux.

Implicit Types (statusDetails : ResolutionStatusDetails) (projectId : string).
Implicit Types (activities : list GroupActivity) (user : AvatarUser).
Implicit Types (entry : GroupActivity).

Ltac status_shapes sd :=
  destruct sd as [[?user|] [[|]|] [[|?ch ?rest]|] [?commit|]].

(** Membership in a list that is written out is decided by running
    through it. *)
Ltac by_membership := apply (bool_decide_unpack _); by vm_compute.

(** Two decidable propositions with the same decision are equivalent. *)
Lemma decided_iff (P Q : Prop) `{Decision P, Decision Q} :
  bool_decide P = bool_decide Q → P ↔ Q.
Proof. intros Heq. by rewrite <-(bool_decide_spec P), Heq, bool_decide_spec. Qed.

Ltac by_decisions :=
  lazymatch goal with
  | |- ?P ↔ ?Q => by apply (decided_iff P Q)
  end.

Lemma find_relevant_cons entry activities :
  relevantActivity (entry :: activities)
  = if decide (type entry = SET_RESOLVED_IN_RELEASE) then Some entry
    else relevantActivity activities.
Proof.
  unfold relevantActivity. simpl.
  destruct (decide (type entry = SET_RESOLVED_IN_RELEASE)) as [Heq|Hne].
  - by rewrite bool_decide_eq_true_2.
  - by rewrite bool_decide_eq_false_2.
Qed.

Lemma relevantActivity_resolutionsInRelease activities :
  relevantActivity (resolutionsInRelease activities) = relevantActivity activities.
Proof.
  unfold resolutionsInRelease.
  induction activities as [|entry activities IH]; [done|].
  rewrite find_relevant_cons.
  destruct (decide (type entry = SET_RESOLVED_IN_RELEASE)) as [Heq|Hne].
  - rewrite filter_cons_True by done. rewrite find_relevant_cons. by rewrite decide_True.
  - by rewrite filter_cons_False.
Qed.

Lemma renderReason_same_version statusDetails projectId activities activities' :
  currentReleaseVersion activities = currentReleaseVersion activities' →
  renderReason statusDetails projectId activities
  = renderReason statusDetails projectId activities'.
Proof. unfold renderReason. by intros ->. Qed.

(** X1: entries of the history of any other type are invisible to
    [renderReason]: the message for a history is the message for its
    set-resolved-in-release entries alone. *)
Theorem renderReason_resolutionsInRelease statusDetails projectId activities :
  renderReason statusDetails projectId (resolutionsInRelease activities)
  = renderReason statusDetails projectId activities.
Proof.
  apply renderReason_same_version. unfold currentReleaseVersion.
  by rewrite relevantActivity_resolutionsInRelease.
Qed.

(** X2: a [current_release_version] that is the empty string counts as
    none: when the version found in the history is absent or empty, the
    message is the one of the empty history. *)
Theorem renderReason_falsy_version statusDetails projectId activities :
  toBoolean (currentReleaseVersion activities) = false →
  renderReason statusDetails projectId activities
  = renderReason statusDetails projectId [].
Proof.
  intros Hfalsy. unfold renderReason. rewrite Hfalsy.
  by change (toBoolean (currentReleaseVersion [])) with false.
Qed.

Lemma renderReason_falsy_version_witness :
  renderReason
    {| actor := Some alice; inNextRelease := None;
       inRelease := Some "1.2.0"; inCommit := None |}
    "sentry" [note; resolvedInRelease (Some "")]
  = renderReason
      {| actor := Some alice; inNextRelease := None;
         inRelease := Some "1.2.0"; inCommit := None |}
      "sentry" [].
Proof.
  apply (renderReason_falsy_version _ "sentry" [note; resolvedInRelease (Some "")]).
  reflexivity.
Defined.

(** X3: an [inNextRelease] that is false and an [inRelease] that is the
    empty string count as absent: taking them out of the status leaves
    the message as it is. *)
Theorem renderReason_dropFalsy statusDetails projectId activities :
  renderReason (dropFalsy statusDetails) projectId activities
  = renderReason statusDetails projectId activities.
Proof. unfold renderReason, dropFalsy. by status_shapes statusDetails. Qed.

(** X4: the project reaches the message through the version reference
    only: a status whose first matching condition is not the release
    one yields the same message for any two projects. *)
Theorem renderReason_project_irrelevant statusDetails projectId projectId' activities :
  firstMatch statusDetails ≠ Release →
  renderReason statusDetails projectId activities
  = renderReason statusDetails projectId' activities.
Proof.
  unfold firstMatch, renderReason.
  status_shapes statusDetails; simpl; done.
Qed.

Lemma renderReason_project_irrelevant_witness :
  renderReason
    {| actor := Some alice; inNextRelease := Some true;
       inRelease := Some "1.2.0"; inCommit := None |}
    "sentry" [resolvedInRelease (Some "1.3.0")]
  = renderReason
      {| actor := Some alice; inNextRelease := Some true;
         inRelease := Some "1.2.0"; inCommit := None |}
      "snuba" [resolvedInRelease (Some "1.3.0")].
Proof.
  apply (renderReason_project_irrelevant
           {| actor := Some alice; inNextRelease := Some true;
              inRelease := Some "1.2.0"; inCommit := None |}
           "sentry" "snuba" [resolvedInRelease (Some "1.3.0")]).
  vm_compute. discriminate.
Defined.

(** X5: the message names the actor exactly when an actor is there and
    the first matching condition is the next release or the release;
    the commit and generic messages never do. What is bound to the
    placeholder is then the identity reference of that actor. *)
Theorem renderReason_actor_bound statusDetails projectId activities :
  ∃ node,
    renderReason statusDetails projectId activities = Normal node
    ∧ ("actor" ∈ placeholders node
       ↔ is_Some (actor statusDetails)
         ∧ firstMatch statusDetails ∈ [NextRelease; Release])
    ∧ ∀ bound, ("actor", bound) ∈ components node →
        ∃ user, actor statusDetails = Some user ∧ bound = actorReference user.
Proof.
  unfold renderReason, firstMatch.
  destruct (toBoolean (currentReleaseVersion activities));
    status_shapes statusDetails; simpl;
    (eexists; split; [reflexivity|]); simpl;
    (split; [by_decisions|]);
    intros bound Hin;
    repeat match goal with
      | Hin : _ ∈ _ :: _ |- _ => apply elem_of_cons in Hin as [Hin|Hin]
      | Hin : _ ∈ [] |- _ => by apply elem_of_nil in Hin
      end;
    simplify_eq; by eexists.
Qed.

(** X6: in every message the placeholders that the text names in
    square brackets are the placeholders that are bound, in the same
    order: none is left unbound and nothing is bound that the text does
    not show. *)
Theorem renderReason_placeholders_bound statusDetails projectId activities :
  ∃ node text,
    renderReason statusDetails projectId activities = Normal node
    ∧ templateOf node = Some text
    ∧ bracketed text = placeholders node.
Proof.
  unfold renderReason.
  destruct (toBoolean (currentReleaseVersion activities));
    status_shapes statusDetails; simpl; by eexists _, _.
Qed.

(** X7: the message binds a version exactly when the first matching
    condition is the release one; the version shown is then never
    empty: it is the version found in the history when that one is not
    empty, else the stored [inRelease], linked to the project given. *)
Theorem renderReason_version_bound statusDetails projectId activities :
  ∃ node,
    renderReason statusDetails projectId activities = Normal node
    ∧ ("version" ∈ placeholders node ↔ firstMatch statusDetails = Release)
    ∧ ∀ bound, ("version", bound) ∈ components node →
        ∃ v, v ≠ ""
             ∧ bound = versionReference v projectId
             ∧ Some v = if toBoolean (currentReleaseVersion activities)
                        then currentReleaseVersion activities
                        else inRelease statusDetails.
Proof.
  unfold renderReason, firstMatch.
  destruct (currentReleaseVersion activities) as [[|? ?]|];
    status_shapes statusDetails; simpl;
    (eexists; split; [reflexivity|]); simpl;
    (split; [by_decisions|]);
    intros bound Hin;
    repeat match goal with
      | Hin : _ ∈ _ :: _ |- _ => apply elem_of_cons in Hin as [Hin|Hin]
      | Hin : _ ∈ [] |- _ => by apply elem_of_nil in Hin
      end;
    simplify_eq; eexists; (split; [|split; reflexivity]); done.
Qed.

(** X8: the scan of the history finds nothing exactly when no entry is
    of type set-resolved-in-release, and the version is then unknown;
    what it finds is an entry of the history, of that type. *)
Theorem relevantActivity_found activities :
  (relevantActivity activities = None
   ↔ Forall (λ e, type e ≠ SET_RESOLVED_IN_RELEASE) activities)
  ∧ (relevantActivity activities = None → currentReleaseVersion activities = None)
  ∧ ∀ entry, relevantActivity activities = Some entry →
      entry ∈ activities ∧ type entry = SET_RESOLVED_IN_RELEASE.
Proof.
  split; [|split].
  - induction activities as [|e activities IH]; [done|].
    rewrite find_relevant_cons, Forall_cons.
    destruct (decide (type e = SET_RESOLVED_IN_RELEASE)) as [Heq|Hne].
    + split; [done|]. by intros [? _].
    + rewrite IH. tauto.
  - unfold currentReleaseVersion. by intros ->.
  - induction activities as [|e activities IH]; [done|].
    intros entry. rewrite find_relevant_cons.
    destruct (decide (type e = SET_RESOLVED_IN_RELEASE)) as [Heq|Hne].
    + intros [= <-]. split; [apply list_elem_of_here|done].
    + intros [Hin Htype]%IH. split; [by apply list_elem_of_further|done].
Qed.

End ResolutionBoxFurther.

(** * Further properties of the discover link *)

Section IncidentDiscoverFurther.

Import IncidentDiscover IncidentDiscoverAux.

Context `{Discover}.

Implicit Types (opts : Opts.t) (incident : Incident.t) (stats : IncidentStats).

(** With projects, incident and stats the function returns the target of
    the view of its query, with the time window as interval. *)
Lemma getIncidentDiscoverUrl_target opts project projects incident stats :
  Opts.projects opts = Some (project :: projects) →
  Opts.incident opts = Some incident →
  Opts.stats opts = Some stats →
  getIncidentDiscoverUrl opts
  = Normal (UrlObject
              (withInterval (timeWindowString incident)
                 (viewTarget
                    (spread (defaultQuery (project :: projects) incident stats)
                       (Opts.extraQueryParams opts))
                    (Opts.orgSlug opts)))).
Proof.
  destruct opts as [orgSlug ? ? ? extra]; simpl. intros -> -> ->.
  unfold getIncidentDiscoverUrl, defaultQuery, viewTarget, timeWindowString; simpl.
  by destruct (getStartEndFromStats stats) as [start end_].
Qed.

Lemma filter_none {A} (P : A → Prop) `{∀ x, Decision (P x)} (l : list A) :
  Forall (λ x, ¬ P x) l → filter P l = [].
Proof.
  induction 1 as [|x l Hx _ IH]; [done|]. by rewrite filter_cons_False.
Qed.

Lemma logical_or_string (text : string) : logical_or (Some text) "" = text.
Proof. by destruct text. Qed.

(** X9: with projects, an incident and stats, the target returned is
    the one of the discover view of the query, with its path and every
    other key of its query as they are, and with the key [interval] set
    to the time window followed by [m], also when the view had an
    interval of its own. *)
Theorem getIncidentDiscoverUrl_interval opts project projects incident stats :
  Opts.projects opts = Some (project :: projects) →
  Opts.incident opts = Some incident →
  Opts.stats opts = Some stats →
  let view :=
    viewTarget
      (spread (defaultQuery (project :: projects) incident stats)
         (Opts.extraQueryParams opts))
      (Opts.orgSlug opts) in
  ∃ target,
    getIncidentDiscoverUrl opts = Normal (UrlObject target)
    ∧ UrlTarget.pathname target = UrlTarget.pathname view
    ∧ UrlTarget.query target !! "interval"
      = Some (QString (numberToString (AlertRule.timeWindow (Incident.alertRule incident))
                       +:+ "m"))
    ∧ ∀ key, key ≠ "interval" →
        UrlTarget.query target !! key = UrlTarget.query view !! key.
Proof.
  intros Hprojects Hincident Hstats view.
  rewrite (getIncidentDiscoverUrl_target opts project projects incident stats) by done.
  eexists. split; [done|]. split; [done|]. split.
  - apply lookup_insert_eq.
  - intros key Hkey. by apply lookup_insert_ne.
Qed.

(** X10: without projects among the extra parameters, the projects of
    the query are the numbers of the ids of the projects given whose
    slug is among the incident's, in the order given; there are no more
    of them than projects given, and when no slug is the incident's the
    target is still built, over no project. *)
Theorem getIncidentDiscoverUrl_projects opts project projects incident stats :
  Opts.projects opts = Some (project :: projects) →
  Opts.incident opts = Some incident →
  Opts.stats opts = Some stats →
  Opts.extraQueryParams opts ≫= PartialNewQuery.projects = None →
  ∃ query,
    getIncidentDiscoverUrl opts
    = Normal (UrlObject (withInterval (timeWindowString incident)
                           (viewTarget query (Opts.orgSlug opts))))
    ∧ query = spread (defaultQuery (project :: projects) incident stats)
                (Opts.extraQueryParams opts)
    ∧ NewQuery.projects query
      = (λ p, Number (Project.id p))
          <$> filter (λ p, Project.slug p ∈ Incident.projects incident)
                (project :: projects)
    ∧ (∀ n, n ∈ NewQuery.projects query
            ↔ ∃ p, p ∈ project :: projects
                   ∧ Project.slug p ∈ Incident.projects incident
                   ∧ n = Number (Project.id p))
    ∧ (length (NewQuery.projects query) ≤ length (project :: projects))%nat
    ∧ (Forall (λ p, Project.slug p ∉ Incident.projects incident) (project :: projects) →
       NewQuery.projects query = []).
Proof.
  intros Hprojects Hincident Hstats Hextra.
  eexists. split; [by apply getIncidentDiscoverUrl_target|]. split; [done|].
  assert (NewQuery.projects
            (spread (defaultQuery (project :: projects) incident stats)
               (Opts.extraQueryParams opts))
          = (λ p, Number (Project.id p))
              <$> filter (λ p, Project.slug p ∈ Incident.projects incident)
                    (project :: projects)) as ->.
  { destruct (Opts.extraQueryParams opts) as [extra|]; [|done].
    simpl in Hextra. simpl. by rewrite Hextra. }
  split; [done|]. split; [|split].
  - intros n. rewrite list_elem_of_fmap. split.
    + intros (p & -> & [Hslug Hin]%list_elem_of_filter). by exists p.
    + intros (p & Hin & Hslug & ->). exists p. split; [done|].
      by apply list_elem_of_filter.
  - rewrite length_fmap. apply length_filter.
  - intros Hnone. by rewrite filter_none.
Qed.

(** X11: without extra parameters the query is named after the
    incident, ordered by the alias of the aggregate, descending, with
    the aggregate as y axis if there is one, over the period of the
    stats, in version 2, and shows issue, count() and
    count_unique(user) for an errors alert, as the comment above the
    function says. For any other alert it shows transaction and the
    aggregate of the alert rule: the fields [transaction, count()] of
    the comment are shown only when that aggregate is count(). *)
Theorem getIncidentDiscoverUrl_defaults opts project projects incident stats :
  Opts.projects opts = Some (project :: projects) →
  Opts.incident opts = Some incident →
  Opts.stats opts = Some stats →
  Opts.extraQueryParams opts = None →
  let aggregate := AlertRule.aggregate (Incident.alertRule incident) in
  ∃ query,
    getIncidentDiscoverUrl opts
    = Normal (UrlObject (withInterval (timeWindowString incident)
                           (viewTarget query (Opts.orgSlug opts))))
    ∧ NewQuery.name query = Incident.title incident
    ∧ NewQuery.orderby query = Some ("-" +:+ getAggregateAlias aggregate)
    ∧ NewQuery.yAxis query = (if decide (aggregate = "") then None else Some [aggregate])
    ∧ NewQuery.fields query
      = (if decide (AlertRule.dataset (Incident.alertRule incident) = ERRORS)
         then ["issue"; "count()"; "count_unique(user)"]
         else ["transaction"; aggregate])
    ∧ (AlertRule.dataset (Incident.alertRule incident) ≠ ERRORS →
       NewQuery.fields query = ["transaction"; "count()"] ↔ aggregate = "count()")
    ∧ (NewQuery.start query, NewQuery.end_ query)
      = (Some (getStartEndFromStats stats).1, Some (getStartEndFromStats stats).2)
    ∧ NewQuery.version query = 2%Z
    ∧ NewQuery.query query = default "" (Incident.discoverQuery incident).
Proof.
  intros Hprojects Hincident Hstats Hextra aggregate.
  exists (defaultQuery (project :: projects) incident stats).
  split.
  { rewrite (getIncidentDiscoverUrl_target opts project projects incident stats) by done.
    by rewrite Hextra. }
  split; [apply logical_or_string|]. split; [done|]. split; [|split; [done|split; [|done]]].
  - unfold defaultQuery; simpl. fold aggregate. by destruct aggregate.
  - intros Hdataset. unfold defaultQuery; simpl. fold aggregate.
    rewrite decide_False by done. split; [by intros [= ->]|by intros ->].
Qed.

(** X12: the extra parameters are spread last: each field they give
    replaces the default of the query, the projects also when they are
    not the incident's, and each field they leave out keeps its
    default. *)
Theorem getIncidentDiscoverUrl_extra opts project projects incident stats extra :
  Opts.projects opts = Some (project :: projects) →
  Opts.incident opts = Some incident →
  Opts.stats opts = Some stats →
  Opts.extraQueryParams opts = Some extra →
  let defaults := defaultQuery (project :: projects) incident stats in
  ∃ query,
    getIncidentDiscoverUrl opts
    = Normal (UrlObject (withInterval (timeWindowString incident)
                           (viewTarget query (Opts.orgSlug opts))))
    ∧ NewQuery.name query = default (NewQuery.name defaults) (PartialNewQuery.name extra)
    ∧ NewQuery.query query = default (NewQuery.query defaults) (PartialNewQuery.query extra)
    ∧ NewQuery.projects query
      = default (NewQuery.projects defaults) (PartialNewQuery.projects extra)
    ∧ NewQuery.fields query
      = default (NewQuery.fields defaults) (PartialNewQuery.fields extra)
    ∧ NewQuery.version query
      = default (NewQuery.version defaults) (PartialNewQuery.version extra)
    ∧ NewQuery.orderby query
      = default (NewQuery.orderby defaults) (PartialNewQuery.orderby extra)
    ∧ NewQuery.yAxis query = default (NewQuery.yAxis defaults) (PartialNewQuery.yAxis extra)
    ∧ NewQuery.start query = default (NewQuery.start defaults) (PartialNewQuery.start extra)
    ∧ NewQuery.end_ query = default (NewQuery.end_ defaults) (PartialNewQuery.end_ extra).
Proof.
  intros Hprojects Hincident Hstats Hextra defaults.
  exists (spread defaults (Some extra)). split; [|done].
  rewrite (getIncidentDiscoverUrl_target opts project projects incident stats) by done.
  by rewrite Hextra.
Qed.

(** X13: an empty object as extra parameters is as good as none: the
    function returns the same with it as without. *)
Theorem getIncidentDiscoverUrl_no_extra orgSlug (projects' : option (list Project.t))
    (incident' : option Incident.t) (stats' : option IncidentStats) :
  getIncidentDiscoverUrl
    {| Opts.orgSlug := orgSlug; Opts.projects := projects'; Opts.incident := incident';
       Opts.stats := stats'; Opts.extraQueryParams := Some noExtra |}
  = getIncidentDiscoverUrl
      {| Opts.orgSlug := orgSlug; Opts.projects := projects'; Opts.incident := incident';
         Opts.stats := stats'; Opts.extraQueryParams := None |}.
Proof.
  by destruct projects' as [[|p ps]|], incident' as [i|], stats' as [st|].
Qed.

End IncidentDiscoverFurther.

(** ** The discover link on sample data *)

Section IncidentDiscoverSamples.

Import IncidentDiscover IncidentDiscoverAux.

#[local] Existing Instance sampleNumbers.
#[local] Existing Instance sampleDiscover.

(** The view of the sample has an interval of one hour; the link has the
    time window of the alert rule. *)
Lemma getIncidentDiscoverUrl_interval_witness :
  ∃ target,
    getIncidentDiscoverUrl (sampleOpts None) = Normal (UrlObject target)
    ∧ UrlTarget.pathname target = "/organizations/org-slug/discover/results/"
    ∧ UrlTarget.query target !! "interval" = Some (QString "60m")
    ∧ ∀ key, key ≠ "interval" →
        UrlTarget.query target !! key
        = ({[ "name" := QString "Too many errors";
              "field" := QStrings ["issue"; "count()"; "count_unique(user)"];
              "interval" := QString "1h" ]} : gmap string QueryValue) !! key.
Proof.
  apply (getIncidentDiscoverUrl_interval (sampleOpts None)
           {| Project.id := "1"; Project.slug := "mars" |}
           [{| Project.id := "2"; Project.slug := "earth" |}]
           sampleIncident ("2021-08-01T00:00:00", "2021-08-02T00:00:00"));
    reflexivity.
Defined.

(** Of the projects mars and earth the incident is earth's. *)
Lemma getIncidentDiscoverUrl_projects_witness :
  ∃ query,
    getIncidentDiscoverUrl (sampleOpts None)
    = Normal (UrlObject (withInterval "60m" (viewTarget query "org-slug")))
    ∧ NewQuery.projects query = ["2"].
Proof.
  destruct (getIncidentDiscoverUrl_projects (sampleOpts None)
              {| Project.id := "1"; Project.slug := "mars" |}
              [{| Project.id := "2"; Project.slug := "earth" |}]
              sampleIncident ("2021-08-01T00:00:00", "2021-08-02T00:00:00")
              eq_refl eq_refl eq_refl eq_refl)
    as (query & Hurl & _ & Hprojects & _).
  exists query. split; [exact Hurl|exact Hprojects].
Defined.

(** The defaults of an alert on transactions: the fields are
    transaction and the percentile of the rule, not count(). *)
Lemma getIncidentDiscoverUrl_defaults_witness :
  ∃ query,
    getIncidentDiscoverUrl sampleTransactionOpts
    = Normal (UrlObject (withInterval "10m" (viewTarget query "org-slug")))
    ∧ NewQuery.name query = "Slow transactions"
    ∧ NewQuery.orderby query = Some "-p95(transaction.duration)"
    ∧ NewQuery.yAxis query = Some ["p95(transaction.duration)"]
    ∧ NewQuery.fields query = ["transaction"; "p95(transaction.duration)"]
    ∧ NewQuery.fields query ≠ ["transaction"; "count()"]
    ∧ NewQuery.version query = 2%Z
    ∧ NewQuery.query query = "event.type:transaction".
Proof.
  destruct (getIncidentDiscoverUrl_defaults sampleTransactionOpts
              {| Project.id := "1"; Project.slug := "mars" |}
              [{| Project.id := "2"; Project.slug := "earth" |}]
              sampleTransactionIncident ("2021-08-01T00:00:00", "2021-08-02T00:00:00")
              eq_refl eq_refl eq_refl eq_refl)
    as (query & Hurl & Hname & Horder & Haxis & Hfields & Hcount & _ & Hversion & Hquery).
  exists query.
  split; [exact Hurl|]. split; [exact Hname|]. split; [exact Horder|].
  split; [exact Haxis|]. split; [exact Hfields|].
  split; [|split; [exact Hversion|exact Hquery]].
  intros Hdocumented. by apply Hcount in Hdocumented.
Defined.

(** The name and the projects are the extra ones, the rest is default. *)
Lemma getIncidentDiscoverUrl_extra_witness :
  ∃ query,
    getIncidentDiscoverUrl (sampleOpts (Some sampleExtra))
    = Normal (UrlObject (withInterval "60m" (viewTarget query "org-slug")))
    ∧ NewQuery.name query = "Incident #7"
    ∧ NewQuery.projects query = ["7"]
    ∧ NewQuery.fields query = ["issue"; "count()"; "count_unique(user)"].
Proof.
  destruct (getIncidentDiscoverUrl_extra (sampleOpts (Some sampleExtra))
              {| Project.id := "1"; Project.slug := "mars" |}
              [{| Project.id := "2"; Project.slug := "earth" |}]
              sampleIncident ("2021-08-01T00:00:00", "2021-08-02T00:00:00")
              sampleExtra eq_refl eq_refl eq_refl eq_refl)
    as (query & Hurl & Hname & _ & Hprojects & Hfields & _).
  exists query. repeat split; [exact Hurl|exact Hname|exact Hprojects|exact Hfields].
Defined.

End IncidentDiscoverSamples.

(** * Properties of the target of a Slack action *)

Section ActionTargetProperties.

Import Jsx ActionTarget.

Context `{ActionKinds} {R : Type}.

Implicit Types (action : Action) (onChange : string → R).

(** X14: the selector renders nothing unless the action is a Slack
    action with a specific target; a target that is not set counts as
    not specific. *)
Theorem ActionSpecificTargetSelector_hidden action disabled onChange :
  ActionSpecificTargetSelector action disabled onChange = empty
  ↔ targetType action ≠ Some SPECIFIC ∨ type action ≠ SLACK.
Proof.
  unfold ActionSpecificTargetSelector.
  destruct (decide (targetType action = Some SPECIFIC)) as [Htarget|Htarget];
    destruct (decide (type action = SLACK)) as [Htype|Htype];
    rewrite ?(bool_decide_eq_true_2 _ Htarget), ?(bool_decide_eq_false_2 _ Htarget),
      ?(bool_decide_eq_true_2 _ Htype), ?(bool_decide_eq_false_2 _ Htype); simpl;
    split; try done; try tauto.
Qed.

(** X15: for a Slack action with a specific target the selector is a
    text input whose value is the channel id of the action, and the
    empty string when the action has none, never [undefined]; it is
    disabled as the caller says, and a change of the input hands the
    text of the input to the caller's [onChange]. *)
Theorem ActionSpecificTargetSelector_input action disabled onChange :
  targetType action = Some SPECIFIC →
  type action = SLACK →
  let input := ActionSpecificTargetSelector action disabled onChange in
  tagOf input = Some "Input"
  ∧ stringProp "type" input = Some "text"
  ∧ stringProp "value" input = Some (default "" (inputChannelId action))
  ∧ boolProp "disabled" input = Some disabled
  ∧ ∃ handle,
      propOf "onChange" input = Some (Handler handle)
      ∧ ∀ e, handle e = onChange (value (target e)).
Proof.
  intros Htarget Htype input. unfold input, ActionSpecificTargetSelector.
  rewrite (bool_decide_eq_true_2 _ Htarget), (bool_decide_eq_true_2 _ Htype); simpl.
  repeat split.
  - unfold stringProp; simpl. by destruct (inputChannelId action) as [[|? ?]|].
  - by eexists.
Qed.

End ActionTargetProperties.

Section ActionTargetSamples.

Import Jsx ActionTarget.

(** A Slack action without a channel id: the input is empty, and typing
    a channel hands it on. *)
Lemma ActionSpecificTargetSelector_input_witness :
  let input :=
    @ActionSpecificTargetSelector sampleKinds string (sampleAction None) false (λ text, text) in
  tagOf input = Some "Input"
  ∧ stringProp "type" input = Some "text"
  ∧ stringProp "value" input = Some ""
  ∧ boolProp "disabled" input = Some false
  ∧ ∃ handle,
      propOf "onChange" input = Some (Handler handle)
      ∧ ∀ e, handle e = value (target e).
Proof.
  exact (@ActionSpecificTargetSelector_input sampleKinds string
           (sampleAction None) false (λ text, text) eq_refl eq_refl).
Defined.

End ActionTargetSamples.

(** * Properties of the header of the stats pages *)

Section StatsHeaderProperties.

Import Jsx StatsHeader.

Implicit Types (organization : Organization) (activeTab : Tab).

(** X16: of the two tabs of the header exactly one is active, and it is
    the one whose link leads to the page of the active tab. *)
Theorem StatsHeader_one_active_tab organization activeTab :
  length (tagged "li" (StatsHeader organization activeTab)) = 2
  ∧ ∃ tab link,
      filter (λ e, stringProp "className" e = Some "active")
        (tagged "li" (StatsHeader organization activeTab)) = [tab]
      ∧ tagged "Link" tab = [link]
      ∧ stringProp "to" link = Some (tabPath organization activeTab).
Proof.
  destruct activeTab; (split; [reflexivity|]); by eexists _, _.
Qed.

(** X17: the button to give feedback is in the header exactly when the
    active tab is the one of the team stats; it then writes to the
    feedback address. *)
Theorem StatsHeader_feedback organization activeTab :
  (tagged "Button" (StatsHeader organization activeTab) ≠ [] ↔ activeTab = team)
  ∧ ∀ button, button ∈ tagged "Button" (StatsHeader organization activeTab) →
      stringProp "href" button
      = Some "mailto:workflow-feedback@sentry.io?subject=Team Stats Feedback".
Proof.
  destruct activeTab; split; try done.
  - intros button Hin. by apply elem_of_nil in Hin.
  - intros button Hin%list_elem_of_singleton. by subst.
Qed.

End StatsHeaderProperties.

(** * Properties of the theme sample and of the colour tables *)

Section DocsUiProperties.

Import Jsx DocsUi.

Context `{Themes}.

Implicit Types (props : Props) (theme next : ThemeName) (ambient : Theme).
Implicit Types (colors : list ColorDefinition).

Lemma descendants_element {H' O'} tag (props : list (string * Value H' O'))
    (children : list (Element H' O')) :
  descendants (element tag props children)
  = element tag props children :: (children ≫= descendants).
Proof. reflexivity. Qed.

(** X18: a sample without the switcher has no button to click: it stays
    in the light theme, whatever the theme around it is; its children
    are shown under the name light and under the theme object of the
    surroundings. *)
Theorem Sample_without_switcher props ambient theme :
  default false (showThemeSwitcher props) = false →
  reachable (λ theme, Sample props theme ambient) theme →
  theme = light
  ∧ clicks (Sample props theme ambient) = []
  ∧ Sample props theme ambient
    = element "Wrap" []
        [empty;
         element "ThemeProvider" [("theme", Obj ambient)]
           [element "InnerWrap"
              [("noBorder", Bool (default false (noBorder props)));
               ("increaseMarginTop", Bool false)]
              [element "ThemeContext.Provider" [("value", Str "light")]
                 [children props light]]]].
Proof.
  intros Hswitcher Hreachable.
  assert (∀ theme, clicks (Sample props theme ambient) = []) as Hclicks.
  { intros ?. unfold Sample. by rewrite Hswitcher. }
  assert (theme = light) as ->.
  { destruct Hreachable as [|theme next _ Hnext]; [done|].
    rewrite Hclicks in Hnext. by apply elem_of_nil in Hnext. }
  split; [done|]. split; [apply Hclicks|].
  unfold Sample. by rewrite Hswitcher.
Qed.

(** X19: a sample with the switcher shows a button for each theme, and
    every theme can be reached; the button that is active is the one of
    the theme the sample is in, and the theme object provided is the
    light or the dark one accordingly, never the one of the
    surroundings. *)
Theorem Sample_with_switcher props ambient theme :
  showThemeSwitcher props = Some true →
  let view := Sample props theme ambient in
  clicks view = [light; dark]
  ∧ reachable (λ theme, Sample props theme ambient) theme
  ∧ (∃ button,
       filter (λ e, boolProp "active" e = Some true)
         (tagged "ThemeSwitcherButton" (switcher view)) = [button]
       ∧ propOf "onClick" button = Some (Handler theme))
  ∧ propOf "theme" (themeProvider view)
    = Some (Obj (if decide (theme = light) then lightTheme else darkTheme))
  ∧ tagged "ThemeContext.Provider" (themeProvider view)
    = element "ThemeContext.Provider" [("value", Str (themeString theme))]
        [children props theme]
      :: tagged "ThemeContext.Provider" (children props theme).
Proof.
  intros Hswitcher view.
  assert (∀ theme, clicks (Sample props theme ambient) = [light; dark]) as Hclicks.
  { intros ?. unfold Sample. by rewrite Hswitcher. }
  split; [apply Hclicks|]. split.
  { apply (reachable_click _ light); [constructor|].
    rewrite Hclicks.
    destruct theme; [apply list_elem_of_here|apply list_elem_of_further, list_elem_of_here]. }
  unfold view, Sample. rewrite Hswitcher. simpl.
  split; [destruct theme; by eexists|]. split; [by destruct theme|].
  unfold tagged. rewrite !descendants_element. simpl. rewrite !app_nil_r.
  rewrite !filter_cons_False by done. by rewrite filter_cons_True.
Qed.

(** X20: the sample with the moon button, when it shows its switcher,
    is in the dark theme after an odd number of clicks and in the light
    one after an even number; without the switcher there is nothing to
    click. *)
Theorem SampleToggle_afterClicks props ambient n :
  afterClicks (λ theme, SampleToggle props theme ambient) n
  = if default false (showThemeSwitcher props)
    then Some (if Nat.even n then light else dark)
    else match n with 0 => Some light | S _ => None end.
Proof.
  induction n as [|n IH]; [by destruct (default false _)|].
  cbn [afterClicks]. rewrite IH.
  destruct (default false (showThemeSwitcher props)) eqn:Hswitcher.
  - rewrite Nat.even_succ, <-Nat.negb_even.
    unfold SampleToggle. rewrite Hswitcher.
    by destruct (Nat.even n).
  - destruct n as [|n]; [|done].
    unfold SampleToggle. by rewrite Hswitcher.
Qed.

Lemma filter_bind {A B} (P : B → Prop) `{∀ x, Decision (P x)} (f : A → list B)
    (l : list A) :
  filter P (l ≫= f) = l ≫= (λ x, filter P (f x)).
Proof.
  induction l as [|x l IH]; [done|].
  cbn [mbind list_bind]. by rewrite filter_app, IH.
Qed.

Lemma bind_singleton {A B} (f : A → B) (l : list A) : l ≫= (λ x, [f x]) = f <$> l.
Proof. induction l as [|x l IH]; [done|]. cbn. by rewrite <-IH. Qed.

Lemma tagged_element {H' O'} selected tag (props : list (string * Value H' O'))
    (children : list (Element H' O')) :
  tagged selected (element tag props children)
  = (if decide (tag = selected) then [element tag props children] else [])
    ++ (children ≫= tagged selected).
Proof.
  unfold tagged. rewrite descendants_element.
  destruct (decide (tag = selected)) as [->|Hne].
  - rewrite filter_cons_True by done. by rewrite filter_bind.
  - rewrite filter_cons_False by (simpl; congruence). by rewrite filter_bind.
Qed.

Lemma tagged_rows {H' O' A} selected (row : A → Element H' O')
    (found : A → Element H' O') (l : list A) :
  (∀ x, tagged selected (row x) = [found x]) →
  map row l ≫= tagged selected = found <$> l.
Proof.
  intros Hrow. induction l as [|x l IH]; [done|].
  cbn. by rewrite Hrow, IH.
Qed.

(** X21: a colour table has a row for each colour, in the order given
    and keyed by the name of the colour; in each row the chip and the
    value printed beside it are the same, the light value of the colour
    under the light theme and the dark value under the dark one. *)
Theorem ColorTable_rows colors theme :
  omap (stringProp "key") (tagged "TableRow" (ColorTable colors theme)) = name <$> colors
  ∧ stringProp "value" <$> tagged "ColorChip" (ColorTable colors theme)
    = (λ c, Some (colorValue theme c)) <$> colors
  ∧ tagged "ColorValue" (ColorTable colors theme)
    = (λ c, element "ColorValue" [] [text (colorValue theme c)]) <$> colors
  ∧ tagged "ColorName" (ColorTable colors theme)
    = (λ c, element "ColorName" [] [text (name c)]) <$> colors.
Proof.
  unfold ColorTable.
  repeat split;
    rewrite tagged_element; cbn [mbind list_bind];
    rewrite (tagged_element _ "TableBody");
    erewrite tagged_rows by (intros c; reflexivity);
    rewrite !decide_False by done;
    match goal with
    | |- context [tagged ?selected (element "TableHead" ?props ?children)] =>
        let found := eval vm_compute in (tagged selected (element "TableHead" props children)) in
        change (tagged selected (element "TableHead" props children)) with found
    end;
    rewrite app_nil_r; cbn [app].
  - induction colors as [|c colors IH]; [done|]. cbn in *. by rewrite IH.
  - by rewrite <-list_fmap_compose.
  - done.
  - done.
Qed.

(** X22: in the table of the neutral colours and in the one of the
    accent colours every chip shows the value of the theme the sample
    is in, light at first, whatever the theme of the surroundings; the
    rows of each table have different keys. *)
Theorem tables_follow_theme theme ambient :
  stringProp "value" <$> tagged "ColorChip" (NeutralTable theme ambient)
  = (λ c, Some (colorValue theme c)) <$> neutralColors
  ∧ stringProp "value" <$> tagged "ColorChip" (AccentTable theme ambient)
    = (λ c, Some (colorValue theme c)) <$> accentColors
  ∧ NoDup (omap (stringProp "key") (tagged "TableRow" (NeutralTable theme ambient)))
  ∧ NoDup (omap (stringProp "key") (tagged "TableRow" (AccentTable theme ambient)))
  ∧ afterClicks (λ theme, NeutralTable theme ambient) 0 = Some light.
Proof.
  split; [by destruct theme; vm_compute|].
  split; [by destruct theme; vm_compute|].
  split; [|split; [|done]].
  - apply (bool_decide_unpack _). by destruct theme; vm_compute.
  - apply (bool_decide_unpack _). by destruct theme; vm_compute.
Qed.

End DocsUiProperties.

Section DocsUiSamples.

Import Jsx DocsUi.

#[local] Existing Instance sampleThemes.

(** A sample around a text, in dark surroundings. *)
Lemma Sample_without_switcher_witness :
  let props :=
    {| children := λ _, text "Sample"; showThemeSwitcher := None; noBorder := None |} in
  light = light
  ∧ clicks (Sample props light "darkTheme") = []
  ∧ Sample props light "darkTheme"
    = element "Wrap" []
        [empty;
         element "ThemeProvider" [("theme", Obj "darkTheme")]
           [element "InnerWrap"
              [("noBorder", Bool false); ("increaseMarginTop", Bool false)]
              [element "ThemeContext.Provider" [("value", Str "light")]
                 [text "Sample"]]]].
Proof.
  exact (@Sample_without_switcher sampleThemes
           {| children := λ _, text "Sample"; showThemeSwitcher := None; noBorder := None |}
           "darkTheme" light eq_refl (reachable_initial _)).
Defined.

(** The same sample with the switcher, after a click on Dark. *)
Lemma Sample_with_switcher_witness :
  let props :=
    {| children := λ _, text "Sample"; showThemeSwitcher := Some true; noBorder := None |} in
  clicks (Sample props dark "lightTheme") = [light; dark]
  ∧ propOf "theme" (themeProvider (Sample props dark "lightTheme")) = Some (Obj "darkTheme").
Proof.
  destruct (@Sample_with_switcher sampleThemes
              {| children := λ _, text "Sample"; showThemeSwitcher := Some true;
                 noBorder := None |}
              "lightTheme" dark eq_refl)
    as (Hclicks & _ & _ & Htheme & _).
  split; [exact Hclicks|exact Htheme].
Defined.

End DocsUiSamples.

(** * Properties of rendering under the theme in tests *)

Section TestUtilsProperties.

Import Jsx TestUtils.

Context `{Library}.

Implicit Types (render : View → RenderOptions → RenderResult) (ui : View).
Implicit Types (options : ContextRenderOptions) (own : Component).

(** X23: the providers put their children under the light theme, that
    under the style cache, and that under the child context of the
    definitions given, or under a fragment when none are given; below
    the outermost element there is one provider of each kind besides
    those of the children. *)
Theorem makeAllTheProviders_nesting (given : option Defs) (children : View) :
  makeAllTheProviders given children
  = (match given with
     | Some contextDefs =>
         element "ContextProvider"
           [("childContextTypes", Obj (ChildContextTypes contextDefs));
            ("getChildContext", Obj (ChildContext contextDefs))]
     | None => element "Fragment" []
     end)
      [element "CacheProvider" [("value", Obj Cache)]
         [element "ThemeProvider" [("theme", Obj LightTheme)] [children]]]
  ∧ tagged "ThemeProvider" (makeAllTheProviders given children)
    = element "ThemeProvider" [("theme", Obj LightTheme)] [children]
      :: tagged "ThemeProvider" children
  ∧ tagged "CacheProvider" (makeAllTheProviders given children)
    = element "CacheProvider" [("value", Obj Cache)]
        [element "ThemeProvider" [("theme", Obj LightTheme)] [children]]
      :: tagged "CacheProvider" children.
Proof.
  split; [by destruct given|].
  destruct given as [contextDefs|]; unfold makeAllTheProviders, createProvider, Fragment;
    repeat (rewrite tagged_element; cbn [mbind list_bind]); rewrite !app_nil_r;
    by repeat case_decide.
Qed.

(** X24: a wrapper among the options replaces the providers instead of
    going inside them: with it [mountWithTheme] is [render] with the
    options as they are, the context left out, and neither the theme
    nor the context given reaches the element rendered. *)
Theorem mountWithTheme_own_wrapper render ui options own :
  wrapper (otherOptions options) = Some own →
  mountWithTheme render ui (Some options) = render ui (otherOptions options)
  ∧ mountWithTheme render ui (Some options)
    = mountWithTheme render ui
        (Some {| context := None; otherOptions := otherOptions options |}).
Proof.
  destruct options as [given [? ? ? ? ?]]; simpl. intros ->.
  by unfold mountWithTheme.
Qed.

(** Without options, and with options that name no wrapper, the
    element is rendered with the providers of the context given as
    wrapper, and the other options as they are; the context itself is
    not among what [render] gets. *)
Lemma mountWithTheme_providers render ui :
  mountWithTheme render ui None
  = render ui
      {| container := None; baseElement := None; hydrate := None; queries := None;
         wrapper := Some (makeAllTheProviders None) |}
  ∧ ∀ options,
      wrapper (otherOptions options) = None →
      mountWithTheme render ui (Some options)
      = render ui
          {| container := container (otherOptions options);
             baseElement := baseElement (otherOptions options);
             hydrate := hydrate (otherOptions options);
             queries := queries (otherOptions options);
             wrapper := Some (makeAllTheProviders (context options)) |}.
Proof.
  split; [done|]. intros options Hwrapper.
  unfold mountWithTheme; simpl. by rewrite Hwrapper.
Qed.

End TestUtilsProperties.

Section TestUtilsSamples.

Import Jsx TestUtils.

#[local] Existing Instance sampleLibrary.

(** Options with a context and a wrapper of their own. *)
Lemma mountWithTheme_own_wrapper_witness :
  let own : Component := λ children, element "div" [] [children] in
  let options :=
    {| context := Some "routerContext";
       otherOptions :=
         {| container := None; baseElement := None; hydrate := None; queries := None;
            wrapper := Some own |} |} in
  let render : View → RenderOptions → string := λ _ _, "rendered" in
  mountWithTheme render (text "ui") (Some options)
  = render (text "ui") (otherOptions options)
  ∧ mountWithTheme render (text "ui") (Some options)
    = mountWithTheme render (text "ui")
        (Some {| context := None; otherOptions := otherOptions options |}).
Proof.
  exact (@mountWithTheme_own_wrapper sampleLibrary (λ _ _, "rendered") (text "ui")
           (@Build_ContextRenderOptions sampleLibrary (Some "routerContext")
              (@Build_RenderOptions sampleLibrary None None None None
                 (Some (λ children, element "div" [] [children]))))
           (λ children, element "div" [] [children]) eq_refl).
Defined.

End TestUtilsSamples.
